(** * Pennywise finance frontend: session pipeline and cache invalidation

    A shallow embedding of the API client
    ([frontend/src/services/apiService.ts]) and of the mutation handlers of
    the Transactions, Budgets and Settings pages, followed by the properties
    the specification states about them.

    Conventions.
    - [localStorage] is a finite map from string keys to string values.
    - JavaScript values of type [any] are the inductive [jsval]; numbers are
      integers (no page passes a fraction to the client).
    - The HTTP library is modelled only as far as the client relies on it:
      instance defaults are merged under the per-call configuration, the
      request interceptor runs before the request goes on the wire, a
      response settles the promise by its status (2xx fulfils, anything
      else rejects), and the response interceptor sees the settled result.
      Header names are compared as written; the client spells every header
      it sets the same way each time.
    - Effects of page handlers are recorded as a trace, in program order.

    Further modules cover the language context and the header toggle, the
    event handlers and table helpers of the Transactions and Budgets pages,
    the budget usage bar of the
    Dashboard and Reports pages, and the route table of [App.tsx] with the
    sidebar links into it.  Percentages, which may be fractional, are
    rationals. *)

From stdpp Require Import gmap strings list fin_maps pretty.
From Stdlib Require QArith Qminmax.

Set Warnings "-register-all".
#[local] Open Scope string_scope.
#[local] Open Scope Z_scope.
#[local] Open Scope list_scope.

(* ===================================================================== *)
(** ** JavaScript values *)
(* ===================================================================== *)

Module Js.

Inductive jsval : Type :=
  | JUndefined
  | JNull
  | JBool (b : bool)
  | JNum (n : Z)
  | JStr (s : string)
  | JArr (items : list jsval)
  | JObj (fields : gmap string jsval).

(** Truthiness of a string: [if (token)] with [token : string]. *)
Definition truthyStr (s : string) : bool :=
  if decide (s = "") then false else true.

(** ToBoolean. *)
Definition truthy (v : jsval) : bool :=
  match v with
  | JUndefined | JNull => false
  | JBool b => b
  | JNum n => if decide (n = 0) then false else true
  | JStr s => truthyStr s
  | JArr _ | JObj _ => true
  end.

(** [v?.k]: short-circuits on [undefined] and [null]; a property that a
    value does not have reads as [undefined]. *)
Definition optProp (v : jsval) (k : string) : jsval :=
  match v with
  | JObj fields => default JUndefined (fields !! k)
  | _ => JUndefined
  end.

(** [a || b]. *)
Definition or_else (a b : jsval) : jsval :=
  if truthy a then a else b.

(** [{ ...o }] for an optional object argument: spreading [undefined]
    contributes nothing. *)
Definition spread (o : option (gmap string jsval)) : gmap string jsval :=
  default ∅ o.

(** [{ k: v, ...o }]: properties listed later win. *)
Definition obj_with_spread (k : string) (v : jsval)
    (o : option (gmap string jsval)) : gmap string jsval :=
  spread o ∪ {[ k := v ]}.

End Js.
Import Js.

(* ===================================================================== *)
(** ** The browser: localStorage and window.location *)
(* ===================================================================== *)

Module Browser.

Record File := mkFile { fileName : string; fileContent : string }.

Record World := mkWorld {
  localStorage : gmap string string;
  location_href : string;
}.

Definition getItem (k : string) (w : World) : option string :=
  localStorage w !! k.

Definition removeItem (k : string) (w : World) : World :=
  mkWorld (delete k (localStorage w)) (location_href w).

Definition setItem (k v : string) (w : World) : World :=
  mkWorld (<[k := v]> (localStorage w)) (location_href w).

Definition set_location_href (u : string) (w : World) : World :=
  mkWorld (localStorage w) u.

(** The Token Store: the session credential and the cached identity, which
    the client keeps under the keys ['token'] and ['user'].  The language
    preference (['language'], LanguageContext.tsx) lives in the same
    storage and is not part of it. *)
Definition isSessionKey (k : string) : Prop := k = "token" ∨ k = "user".

#[global] Instance isSessionKey_dec k : Decision (isSessionKey k).
Proof. unfold isSessionKey. apply _. Defined.

Definition tokenStore (w : World) : gmap string string :=
  filter (λ kv, isSessionKey kv.1) (localStorage w).

End Browser.
Import Browser.

(* ===================================================================== *)
(** ** The HTTP library, as far as the client uses it *)
(* ===================================================================== *)

Module Axios.

Inductive Method := GET | POST | PATCH | DELETE.

Inductive ResponseType := Blob.

Inductive Body :=
  | NoBody
  | JsonBody (v : jsval)
  | FormData (entries : list (string * File)).

Record RequestConfig := mkConfig {
  baseURL : option string;
  url : string;
  method : Method;
  headers : gmap string string;
  params : option (gmap string jsval);
  data : Body;
  responseType : option ResponseType;   (* [None]: the library default, JSON *)
}.

Record Response := mkResponse {
  status : Z;
  body : jsval;
}.

(** The error a failed request rejects with: [response] is absent when no
    response arrived (network failure). *)
Record AxiosError := mkError {
  config : RequestConfig;
  response : option Response;
}.

Inductive Settled (A : Type) :=
  | Fulfilled (a : A)
  | Rejected (e : AxiosError).
Arguments Fulfilled {A} a.
Arguments Rejected {A} e.

(** What the server side does with a request. *)
Inductive Reply :=
  | NoResponse
  | Responded (r : Response).

Record Defaults := mkDefaults {
  defaultBaseURL : string;
  defaultHeaders : gmap string string;
}.

(** Instance defaults sit under the per-call configuration. *)
Definition mergeConfig (d : Defaults) (c : RequestConfig) : RequestConfig :=
  mkConfig (Some (default (defaultBaseURL d) (baseURL c)))
           (url c) (method c)
           (headers c ∪ defaultHeaders d)
           (params c) (data c) (responseType c).

(** Default status validation. *)
Definition validateStatus (s : Z) : bool :=
  bool_decide (200 ≤ s ∧ s < 300).

Definition settle (c : RequestConfig) (r : Reply) : Settled Response :=
  match r with
  | NoResponse => Rejected (mkError c None)
  | Responded resp =>
      if validateStatus (status resp) then Fulfilled resp
      else Rejected (mkError c (Some resp))
  end.

(** Call shorthands: [api.get(url, cfg)], [api.post(url, data, cfg)], ... *)
Definition call (m : Method) (u : string) (d : Body)
    (h : gmap string string) (p : option (gmap string jsval))
    (rt : option ResponseType) : RequestConfig :=
  mkConfig None u m h p d rt.

Definition get (u : string) : RequestConfig := call GET u NoBody ∅ None None.
Definition get_params (u : string) (p : option (gmap string jsval)) : RequestConfig :=
  call GET u NoBody ∅ p None.
(** The [data] argument of a write call: passing [undefined] is the same as
    passing nothing, and the request then has no body. *)
Definition payload (d : jsval) : Body :=
  match d with
  | JUndefined => NoBody
  | _ => JsonBody d
  end.

Definition post (u : string) (d : jsval) : RequestConfig :=
  call POST u (payload d) ∅ None None.
Definition patch (u : string) (d : jsval) : RequestConfig :=
  call PATCH u (payload d) ∅ None None.
Definition delete_ (u : string) : RequestConfig :=
  call DELETE u NoBody ∅ None None.

End Axios.
Import Axios.

(* ===================================================================== *)
(** ** services/apiService.ts *)
(* ===================================================================== *)

Module ApiService.

(** [process.env.REACT_APP_API_URL || 'http://localhost:8000/api'] *)
Definition API_BASE_URL (env : option string) : string :=
  match env with
  | Some u => if truthyStr u then u else "http://localhost:8000/api"
  | None => "http://localhost:8000/api"
  end.

(** The instance state: the defaults of the private [api] object. *)
Record ApiService := mkService { api : Defaults }.

(** [constructor()]: [axios.create({ baseURL, headers })]. *)
Definition new (env : option string) : ApiService :=
  mkService (mkDefaults (API_BASE_URL env)
                        {[ "Content-Type" := "application/json" ]}).

(** Request interceptor, fulfilled branch. *)
Definition requestFulfilled (w : World) (c : RequestConfig) : RequestConfig :=
  match getItem "token" w with
  | Some token =>
      if truthyStr token
      then mkConfig (baseURL c) (url c) (method c)
                    (<["Authorization" := "Token " +:+ token]> (headers c))
                    (params c) (data c) (responseType c)
      else c
  | None => c
  end.

(** Request interceptor, rejected branch. *)
Definition requestRejected {A} (e : AxiosError) : Settled A := Rejected e.

(** Response interceptor, fulfilled branch. *)
Definition responseFulfilled (r : Response) : Response := r.

(** [error.response?.status === 401] *)
Definition isUnauthorized (e : AxiosError) : bool :=
  match response e with
  | Some r => bool_decide (status r = 401)
  | None => false
  end.

(** Response interceptor, rejected branch. *)
Definition responseRejected {A} (e : AxiosError) (w : World) : World * Settled A :=
  let w' :=
    if isUnauthorized e
    then set_location_href "/login" (removeItem "user" (removeItem "token" w))
    else w in
  (w', Rejected e).

(** [setAuthToken(token: string | null)] *)
Definition setAuthToken (token : option string) (s : ApiService) : ApiService :=
  let d := api s in
  match token with
  | Some t =>
      if truthyStr t
      then mkService (mkDefaults (defaultBaseURL d)
                       (<["Authorization" := "Token " +:+ t]> (defaultHeaders d)))
      else mkService (mkDefaults (defaultBaseURL d)
                       (delete "Authorization" (defaultHeaders d)))
  | None =>
      mkService (mkDefaults (defaultBaseURL d)
                  (delete "Authorization" (defaultHeaders d)))
  end.

(** The request as it leaves the client: defaults merged, then the request
    interceptor. *)
Definition outgoing (s : ApiService) (w : World) (c : RequestConfig) : RequestConfig :=
  requestFulfilled w (mergeConfig (api s) c).

(** The wire: every request that reaches the network is logged in order, and
    the server side answers it. *)
Record Net := mkNet {
  sent : list RequestConfig;
  server : RequestConfig → Reply;
}.

Definition transmit (c : RequestConfig) (n : Net) : Net * Reply :=
  (mkNet (sent n ++ [c]) (server n), server n c).

(** One call through the instance: [this.api.request(c)], settled. *)
Definition request (s : ApiService) (c : RequestConfig) (w : World) (n : Net)
    : World * Net * Settled Response :=
  let c' := outgoing s w c in
  let '(n', reply) := transmit c' n in
  match settle c' reply with
  | Fulfilled r => (w, n', Fulfilled (responseFulfilled r))
  | Rejected e => let '(w', out) := responseRejected e w in (w', n', out)
  end.

(** *** Endpoints: the configuration each method hands to [this.api]. *)

(** [`${prefix}${id}/`], for an id that is a whole number a JavaScript number
    holds exactly ([Paths.isSafeInteger] below); those are interpolated in
    plain decimal. *)
Definition idPath (prefix : string) (id : Z) : string :=
  prefix +:+ pretty id +:+ "/".

(* Auth endpoints *)
Definition login (username password : string) : RequestConfig :=
  post "/auth/login/"
       (JObj {[ "username" := JStr username; "password" := JStr password ]}).

Definition register (userData : jsval) : RequestConfig :=
  post "/users/register/" userData.

(* User endpoints *)
Definition getCurrentUser : RequestConfig := get "/users/me/".

(* Transaction endpoints *)
Definition getTransactions (p : option (gmap string jsval)) : RequestConfig :=
  get_params "/transactions/" p.

Definition createTransaction (d : jsval) : RequestConfig :=
  post "/transactions/" d.

Definition updateTransaction (id : Z) (d : jsval) : RequestConfig :=
  patch (idPath "/transactions/" id) d.

Definition deleteTransaction (id : Z) : RequestConfig :=
  delete_ (idPath "/transactions/" id).

Definition getTransactionSummary (p : option (gmap string jsval)) : RequestConfig :=
  get_params "/transactions/summary/" p.

Definition getTransactionCategories : RequestConfig :=
  get "/transactions/categories/".

Definition importTransactionsCSV (file : File) : RequestConfig :=
  let formData := [("file", file)] in
  call POST "/transactions/import_csv/" (FormData formData)
       {[ "Content-Type" := "multipart/form-data" ]} None None.

Definition bulkCreateTransactions (transactions : list jsval) : RequestConfig :=
  post "/transactions/bulk_create/"
       (JObj {[ "transactions" := JArr transactions ]}).

(* Budget endpoints *)
Definition getBudgets : RequestConfig := get "/budgets/".

Definition createBudget (d : jsval) : RequestConfig := post "/budgets/" d.

Definition updateBudget (id : Z) (d : jsval) : RequestConfig :=
  patch (idPath "/budgets/" id) d.

Definition deleteBudget (id : Z) : RequestConfig :=
  delete_ (idPath "/budgets/" id).

Definition getBudgetStatus (p : option (gmap string jsval)) : RequestConfig :=
  get_params "/budgets/status/" p.

Definition getBudgetAlerts : RequestConfig := get "/budgets/alerts/".

Definition getBudgetRecommendations (p : option (gmap string jsval)) : RequestConfig :=
  get_params "/budgets/recommendations/" p.

(* Report endpoints *)
Definition getFinancialSummary (p : option (gmap string jsval)) : RequestConfig :=
  get_params "/reports/summary/" p.

Definition getCategoryBreakdown (p : option (gmap string jsval)) : RequestConfig :=
  get_params "/reports/category/" p.

Definition getMonthlyTrends (p : option (gmap string jsval)) : RequestConfig :=
  get_params "/reports/trends/" p.

Definition getBudgetPerformance (p : option (gmap string jsval)) : RequestConfig :=
  get_params "/reports/budget/" p.

(* Chart endpoints *)
Definition getPieChart (p : option (gmap string jsval)) : RequestConfig :=
  get_params "/charts/pie/" p.

Definition getBarChart (p : option (gmap string jsval)) : RequestConfig :=
  get_params "/charts/bar/" p.

Definition getLineChart (p : option (gmap string jsval)) : RequestConfig :=
  get_params "/charts/line/" p.

Definition getDashboardChart : RequestConfig := get "/charts/dashboard/".

Definition getBudgetChart (p : option (gmap string jsval)) : RequestConfig :=
  get_params "/charts/budget/" p.

Definition downloadChart (type : string) (p : option (gmap string jsval))
    : RequestConfig :=
  call GET "/charts/download/" NoBody ∅
       (Some (obj_with_spread "type" (JStr type) p))
       (Some Blob).

(* Alert endpoints *)
Definition getAlertConfigs : RequestConfig := get "/alert-configs/".

Definition createAlertConfig (d : jsval) : RequestConfig :=
  post "/alert-configs/" d.

Definition updateAlertConfig (id : Z) (d : jsval) : RequestConfig :=
  patch (idPath "/alert-configs/" id) d.

Definition deleteAlertConfig (id : Z) : RequestConfig :=
  delete_ (idPath "/alert-configs/" id).

(** Every way a caller can reach the network through the service. *)
Inductive ApiCall :=
  | Login (username password : string)
  | Register (userData : jsval)
  | GetCurrentUser
  | GetTransactions (p : option (gmap string jsval))
  | CreateTransaction (d : jsval)
  | UpdateTransaction (id : Z) (d : jsval)
  | DeleteTransaction (id : Z)
  | GetTransactionSummary (p : option (gmap string jsval))
  | GetTransactionCategories
  | ImportTransactionsCSV (file : File)
  | BulkCreateTransactions (transactions : list jsval)
  | GetBudgets
  | CreateBudget (d : jsval)
  | UpdateBudget (id : Z) (d : jsval)
  | DeleteBudget (id : Z)
  | GetBudgetStatus (p : option (gmap string jsval))
  | GetBudgetAlerts
  | GetBudgetRecommendations (p : option (gmap string jsval))
  | GetFinancialSummary (p : option (gmap string jsval))
  | GetCategoryBreakdown (p : option (gmap string jsval))
  | GetMonthlyTrends (p : option (gmap string jsval))
  | GetBudgetPerformance (p : option (gmap string jsval))
  | GetPieChart (p : option (gmap string jsval))
  | GetBarChart (p : option (gmap string jsval))
  | GetLineChart (p : option (gmap string jsval))
  | GetDashboardChart
  | GetBudgetChart (p : option (gmap string jsval))
  | DownloadChart (type : string) (p : option (gmap string jsval))
  | GetAlertConfigs
  | CreateAlertConfig (d : jsval)
  | UpdateAlertConfig (id : Z) (d : jsval)
  | DeleteAlertConfig (id : Z).

Definition descriptor (c : ApiCall) : RequestConfig :=
  match c with
  | Login u p => login u p
  | Register d => register d
  | GetCurrentUser => getCurrentUser
  | GetTransactions p => getTransactions p
  | CreateTransaction d => createTransaction d
  | UpdateTransaction id d => updateTransaction id d
  | DeleteTransaction id => deleteTransaction id
  | GetTransactionSummary p => getTransactionSummary p
  | GetTransactionCategories => getTransactionCategories
  | ImportTransactionsCSV f => importTransactionsCSV f
  | BulkCreateTransactions l => bulkCreateTransactions l
  | GetBudgets => getBudgets
  | CreateBudget d => createBudget d
  | UpdateBudget id d => updateBudget id d
  | DeleteBudget id => deleteBudget id
  | GetBudgetStatus p => getBudgetStatus p
  | GetBudgetAlerts => getBudgetAlerts
  | GetBudgetRecommendations p => getBudgetRecommendations p
  | GetFinancialSummary p => getFinancialSummary p
  | GetCategoryBreakdown p => getCategoryBreakdown p
  | GetMonthlyTrends p => getMonthlyTrends p
  | GetBudgetPerformance p => getBudgetPerformance p
  | GetPieChart p => getPieChart p
  | GetBarChart p => getBarChart p
  | GetLineChart p => getLineChart p
  | GetDashboardChart => getDashboardChart
  | GetBudgetChart p => getBudgetChart p
  | DownloadChart t p => downloadChart t p
  | GetAlertConfigs => getAlertConfigs
  | CreateAlertConfig d => createAlertConfig d
  | UpdateAlertConfig id d => updateAlertConfig id d
  | DeleteAlertConfig id => deleteAlertConfig id
  end.

End ApiService.
Import ApiService.

(* ===================================================================== *)
(** ** Pages: mutations of Transactions, Budgets and Settings *)
(* ===================================================================== *)

Module Pages.

Inductive ToastKind := Success | Failure.

(** What a handler does, in program order. *)
Inductive Effect :=
  | InvalidateQueries (key : string)        (* queryClient.invalidateQueries(key) *)
  | Toast (kind : ToastKind) (msg : jsval)  (* toast.success / toast.error *)
  | SetState (setter : string) (v : jsval)  (* a useState setter *)
  | FormReset (form : string).              (* reset() / resetAlert() *)

(** A mutation together with the variables passed to [mutate]. *)
Inductive Mutation :=
  | createTransactionMutation (d : jsval)
  | updateTransactionMutation (id : Z) (d : jsval)
  | deleteTransactionMutation (id : Z)
  | importCSVMutation (file : File)
  | createBudgetMutation (d : jsval)
  | updateBudgetMutation (id : Z) (d : jsval)
  | deleteBudgetMutation (id : Z)
  | updateProfileMutation (d : jsval)
  | createAlertMutation (d : jsval).

(** The first argument of [useMutation]. *)
Definition mutationFn (m : Mutation) : RequestConfig :=
  match m with
  | createTransactionMutation d => createTransaction d
  | updateTransactionMutation id d => updateTransaction id d
  | deleteTransactionMutation id => deleteTransaction id
  | importCSVMutation file => importTransactionsCSV file
  | createBudgetMutation d => createBudget d
  | updateBudgetMutation id d => updateBudget id d
  | deleteBudgetMutation id => deleteBudget id
  | updateProfileMutation d => getCurrentUser
  | createAlertMutation d => createAlertConfig d
  end.

(** [error.response?.data?.error] *)
Definition responseError (e : AxiosError) : jsval :=
  match response e with
  | Some r => optProp (body r) "error"
  | None => JUndefined
  end.

Section Handlers.

(** The translation function of the language context. *)
Variable t : string → string.

Definition onSuccess (m : Mutation) : list Effect :=
  match m with
  | createTransactionMutation _ =>
      [ InvalidateQueries "transactions";
        Toast Success (JStr (t "transactions.transactionAdded"));
        SetState "setShowAddForm" (JBool false);
        FormReset "reset" ]
  | updateTransactionMutation _ _ =>
      [ InvalidateQueries "transactions";
        Toast Success (JStr (t "transactions.transactionUpdated"));
        SetState "setEditingTransaction" JNull;
        FormReset "reset" ]
  | deleteTransactionMutation _ =>
      [ InvalidateQueries "transactions";
        Toast Success (JStr (t "transactions.transactionDeleted")) ]
  | importCSVMutation _ =>
      [ InvalidateQueries "transactions";
        Toast Success (JStr (t "transactions.csvImported"));
        SetState "setShowImportModal" (JBool false) ]
  | createBudgetMutation _ =>
      [ InvalidateQueries "budgets";
        InvalidateQueries "budget-status";
        Toast Success (JStr (t "budgets.budgetAdded"));
        SetState "setShowAddForm" (JBool false);
        FormReset "reset" ]
  | updateBudgetMutation _ _ =>
      [ InvalidateQueries "budgets";
        InvalidateQueries "budget-status";
        Toast Success (JStr (t "budgets.budgetUpdated"));
        SetState "setEditingBudget" JNull;
        FormReset "reset" ]
  | deleteBudgetMutation _ =>
      [ InvalidateQueries "budgets";
        InvalidateQueries "budget-status";
        Toast Success (JStr (t "budgets.budgetDeleted")) ]
  | updateProfileMutation _ =>
      [ InvalidateQueries "current-user";
        Toast Success (JStr (t "settings.settingsSaved")) ]
  | createAlertMutation _ =>
      [ InvalidateQueries "alert-configs";
        Toast Success (JStr "Alert configuration saved");
        FormReset "resetAlert" ]
  end.

Definition onError (m : Mutation) (error : AxiosError) : list Effect :=
  match m with
  | createTransactionMutation _ =>
      [ Toast Failure (or_else (responseError error) (JStr "Failed to create transaction")) ]
  | updateTransactionMutation _ _ =>
      [ Toast Failure (or_else (responseError error) (JStr "Failed to update transaction")) ]
  | deleteTransactionMutation _ =>
      [ Toast Failure (or_else (responseError error) (JStr "Failed to delete transaction")) ]
  | importCSVMutation _ =>
      [ Toast Failure (or_else (responseError error) (JStr (t "transactions.csvImportError"))) ]
  | createBudgetMutation _ =>
      [ Toast Failure (or_else (responseError error) (JStr "Failed to create budget")) ]
  | updateBudgetMutation _ _ =>
      [ Toast Failure (or_else (responseError error) (JStr "Failed to update budget")) ]
  | deleteBudgetMutation _ =>
      [ Toast Failure (or_else (responseError error) (JStr "Failed to delete budget")) ]
  | updateProfileMutation _ =>
      [ Toast Failure (JStr "Failed to update profile") ]
  | createAlertMutation _ =>
      [ Toast Failure (JStr "Failed to save alert configuration") ]
  end.

(** [mutation.mutate(variables)]: one call of the mutation function, then
    the handler that matches how the promise settled. *)
Definition mutate (s : ApiService) (m : Mutation) (w : World) (n : Net)
    : World * Net * list Effect :=
  let '(w', n', out) := request s (mutationFn m) w n in
  (w', n', match out with
           | Fulfilled _ => onSuccess m
           | Rejected e => onError m e
           end).

End Handlers.

(** The cache keys each mutation is configured to invalidate. *)
Definition cacheKeys (m : Mutation) : list string :=
  match m with
  | createTransactionMutation _ | updateTransactionMutation _ _
  | deleteTransactionMutation _ | importCSVMutation _ => [ "transactions" ]
  | createBudgetMutation _ | updateBudgetMutation _ _
  | deleteBudgetMutation _ => [ "budgets"; "budget-status" ]
  | updateProfileMutation _ => [ "current-user" ]
  | createAlertMutation _ => [ "alert-configs" ]
  end.

(** The generic message each mutation falls back to. *)
Definition fallbackMessage (t : string → string) (m : Mutation) : string :=
  match m with
  | createTransactionMutation _ => "Failed to create transaction"
  | updateTransactionMutation _ _ => "Failed to update transaction"
  | deleteTransactionMutation _ => "Failed to delete transaction"
  | importCSVMutation _ => t "transactions.csvImportError"
  | createBudgetMutation _ => "Failed to create budget"
  | updateBudgetMutation _ _ => "Failed to update budget"
  | deleteBudgetMutation _ => "Failed to delete budget"
  | updateProfileMutation _ => "Failed to update profile"
  | createAlertMutation _ => "Failed to save alert configuration"
  end.

(** Mutations of the Settings page. *)
Definition onSettingsPage (m : Mutation) : bool :=
  match m with
  | updateProfileMutation _ | createAlertMutation _ => true
  | _ => false
  end.

(** What the user and the query cache see of a trace: the keys that were
    invalidated and the notifications that were shown, oldest first. *)
Record View := mkView {
  invalidated : gset string;
  toasts : list (ToastKind * jsval);
}.

Definition perform (v : View) (e : Effect) : View :=
  match e with
  | InvalidateQueries k => mkView ({[ k ]} ∪ invalidated v) (toasts v)
  | Toast kind msg => mkView (invalidated v) (toasts v ++ [(kind, msg)])
  | SetState _ _ | FormReset _ => v
  end.

Definition run (v : View) (tr : list Effect) : View := foldl perform v tr.

Definition isInvalidate (e : Effect) : bool :=
  match e with InvalidateQueries _ => true | _ => false end.

Definition isToast (e : Effect) : bool :=
  match e with Toast _ _ => true | _ => false end.

(** Keys a trace invalidates, in order. *)
Definition invalidations (tr : list Effect) : list string :=
  omap (λ e, match e with InvalidateQueries k => Some k | _ => None end) tr.

End Pages.
Import Pages.

(* ===================================================================== *)
(** ** Sample states, used to run the model on concrete inputs *)
(* ===================================================================== *)

Module Samples.

(** A signed-in browser profile with a saved language preference. *)
Definition signedIn : World :=
  mkWorld {[ "token" := "abc123";
             "user" := "sara";
             "language" := "fa" ]}
          "/transactions".

(** A profile that never signed in. *)
Definition signedOut : World := mkWorld {[ "language" := "en" ]} "/login".

(** A server that answers every request the same way. *)
Definition always (status : Z) (body : jsval) : Net :=
  mkNet [] (λ _, Responded (mkResponse status body)).

(** A server that cannot be reached. *)
Definition offline : Net := mkNet [] (λ _, NoResponse).

Definition service : ApiService := new None.

(** Identity translation: every key stands for itself. *)
Definition keys : string → string := λ k, k.

Definition csv : File := mkFile "march.csv" "date,amount,description".

End Samples.

(* ===================================================================== *)
(** ** contexts/LanguageContext.tsx, Header and the Settings preferences *)
(* ===================================================================== *)

Module Language.

Inductive Direction := ltr | rtl.

(** What the provider holds once an effect has run: the two state cells and
    the language last handed to [i18n.changeLanguage]. *)
Record State := mkState {
  language : string;
  direction : Direction;
  i18nLanguage : string;
}.

(** [lang === 'fa' ? 'rtl' : 'ltr'] *)
Definition directionOf (lang : string) : Direction :=
  if decide (lang = "fa") then rtl else ltr.

(** The mount effect of [LanguageProvider]. *)
Definition mount (w : World) : State :=
  let savedLanguage :=
    match getItem "language" w with
    | Some l => if truthyStr l then l else "en"
    | None => "en"
    end in
  mkState savedLanguage (directionOf savedLanguage) savedLanguage.

(** [changeLanguage(lang)] *)
Definition changeLanguage (lang : string) (w : World) : State * World :=
  (mkState lang (directionOf lang) lang, setItem "language" lang w).

(** [toggleLanguage] of the header. *)
Definition toggleLanguage (st : State) (w : World) : State * World :=
  changeLanguage (if decide (language st = "en") then "fa" else "en") w.

(** [handleLanguageChange] of the Settings page. *)
Definition handleLanguageChange (newLanguage : string) (w : World)
    : State * World * list Effect :=
  (changeLanguage newLanguage w,
   [ Toast Success (JStr "Language changed successfully") ]).

End Language.

(* ===================================================================== *)
(** ** Page state and event handlers of Transactions and Budgets *)
(* ===================================================================== *)

Module Page.

(** A row as the list endpoints return it: an object with a numeric [id]. *)
Record Row := mkRow { rowId : Z; rowFields : gmap string jsval }.

Definition rowObject (r : Row) : jsval :=
  JObj (<["id" := JNum (rowId r)]> (rowFields r)).

(** [row.k] *)
Definition rowProp (r : Row) (k : string) : jsval := optProp (rowObject r) k.

Definition rowOf (v : jsval) : option Row :=
  match v with
  | JObj fields =>
      match fields !! "id" with
      | Some (JNum n) => Some (mkRow n (delete "id" fields))
      | _ => None
      end
  | _ => None
  end.

(** The [useState] cells of a page and what [setValue] and [reset] leave in
    its form.  [editing] is [editingTransaction] on the Transactions page
    and [editingBudget] on the Budgets page. *)
Record State := mkPage {
  showAddForm : bool;
  editing : option Row;
  showImportModal : bool;
  formValues : gmap string jsval;
}.

(** [useState(false)], [useState(null)], [useState(false)], [useForm()]. *)
Definition initial : State := mkPage false None false ∅.

(** What an effect of a mutation handler does to the page. *)
Definition perform (st : State) (e : Effect) : State :=
  match e with
  | SetState setter v =>
      if decide (setter = "setShowAddForm")
      then mkPage (truthy v) (editing st) (showImportModal st) (formValues st)
      else if decide (setter = "setEditingTransaction" ∨ setter = "setEditingBudget")
      then mkPage (showAddForm st) (rowOf v) (showImportModal st) (formValues st)
      else if decide (setter = "setShowImportModal")
      then mkPage (showAddForm st) (editing st) (truthy v) (formValues st)
      else st
  | FormReset form =>
      if decide (form = "reset")
      then mkPage (showAddForm st) (editing st) (showImportModal st) ∅
      else st
  | InvalidateQueries _ | Toast _ _ => st
  end.

Definition performAll (st : State) (tr : list Effect) : State := foldl perform st tr.

(** [setValue(k, row.k)] *)
Definition setValueFrom (r : Row) (k : string) (form : gmap string jsval)
    : gmap string jsval :=
  <[k := rowProp r k]> form.

(** The Add button: [setShowAddForm(true); setEditing...(null); reset()]. *)
Definition openAddForm (st : State) : State :=
  mkPage true None (showImportModal st) ∅.

(** The Cancel button of the form. *)
Definition cancelForm (st : State) : State :=
  mkPage false None (showImportModal st) ∅.

(** [mutation.mutate(variables)] from an event handler that may decide not
    to call it; the page then applies what the settled handler did.  The
    state returned is that of the page as long as it stays loaded: a 401
    sends the browser to the login page, and what is returned then is only
    what the page held when it was left. *)
Definition fire (t : string → string) (s : ApiService) (om : option Mutation)
    (st : State) (w : World) (n : Net) : State * World * Net * list Effect :=
  match om with
  | None => (st, w, n, [])
  | Some m =>
      let '(w', n', tr) := mutate t s m w n in
      (performAll st tr, w', n', tr)
  end.

End Page.

Module TransactionsPage.
Import Page.

Definition onSubmit (d : jsval) (st : State) : Mutation :=
  match editing st with
  | Some editingTransaction =>
      updateTransactionMutation (rowId editingTransaction) d
  | None => createTransactionMutation d
  end.

Definition handleEdit (transaction : Row) (st : State) : State :=
  mkPage true (Some transaction) (showImportModal st)
    (setValueFrom transaction "is_income"
      (setValueFrom transaction "date"
        (setValueFrom transaction "category"
          (setValueFrom transaction "description"
            (setValueFrom transaction "amount" (formValues st)))))).

(** [confirmed] is what [window.confirm] returned. *)
Definition handleDelete (confirmed : bool) (id : Z) : option Mutation :=
  if confirmed then Some (deleteTransactionMutation id) else None.


End TransactionsPage.

Module BudgetsPage.
Import Page.

Definition onSubmit (d : jsval) (st : State) : Mutation :=
  match editing st with
  | Some editingBudget => updateBudgetMutation (rowId editingBudget) d
  | None => createBudgetMutation d
  end.

Definition handleEdit (budget : Row) (st : State) : State :=
  mkPage true (Some budget) (showImportModal st)
    (setValueFrom budget "period"
      (setValueFrom budget "limit"
        (setValueFrom budget "category" (formValues st)))).

Definition handleDelete (confirmed : bool) (id : Z) : option Mutation :=
  if confirmed then Some (deleteBudgetMutation id) else None.

End BudgetsPage.

(* ===================================================================== *)
(** ** Budgets page: status lookup and table cells *)
(* ===================================================================== *)

Module BudgetsView.

(** A computed value, or the TypeError JavaScript raises when a property of
    [null] or [undefined] is read or a non-function is called. *)
Inductive Outcome :=
  | Value (v : jsval)
  | TypeError.

(** [status.budget_id === budgetId], for the numeric id of a budget row. *)
Definition hasBudgetId (budgetId : Z) (status : jsval) : bool :=
  match optProp status "budget_id" with
  | JNum n => bool_decide (n = budgetId)
  | _ => false
  end.

(** [items.find((status) => status.budget_id === budgetId)] *)
Fixpoint find (budgetId : Z) (items : list jsval) : Outcome :=
  match items with
  | [] => Value JUndefined
  | status :: rest =>
      match status with
      | JUndefined | JNull => TypeError
      | _ => if hasBudgetId budgetId status then Value status
             else find budgetId rest
      end
  end.

(** [getBudgetStatus(budgetId)]; [budgetStatus] is the query result, absent
    until the first response has arrived. *)
Definition getBudgetStatus (budgetStatus : option Response) (budgetId : Z)
    : Outcome :=
  match budgetStatus with
  | None => Value JUndefined
  | Some r =>
      match body r with
      | JUndefined | JNull => Value JUndefined
      | JArr items => find budgetId items
      | _ => TypeError
      end
  end.

Definition getStatusColor (status : string) : string :=
  if decide (status = "on_track") then "bg-green-500"
  else if decide (status = "warning") then "bg-yellow-500"
  else if decide (status = "exceeded") then "bg-red-500"
  else "bg-gray-500".

Definition getStatusText (t : string → string) (status : string) : string :=
  if decide (status = "on_track") then t "budgets.onTrack"
  else if decide (status = "warning") then t "budgets.warning"
  else if decide (status = "exceeded") then t "budgets.exceeded"
  else status.

(** [getStatusColor(v || 'on_track')]: a [switch] compares strictly, so a
    value that is not a string falls to the default. *)
Definition statusColorOf (v : jsval) : string :=
  match or_else v (JStr "on_track") with
  | JStr s => getStatusColor s
  | _ => "bg-gray-500"
  end.

(** The computed cells of a row of the budgets table. *)
Record Cells := mkCells {
  currentSpending : jsval;   (* status?.current_spending || 0 *)
  remainingBudget : jsval;   (* status?.remaining_budget || budget.limit *)
  barColor : string;         (* getStatusColor(status?.status || 'on_track') *)
}.

Definition cells (status : jsval) (budget : Page.Row) : Cells :=
  mkCells (or_else (optProp status "current_spending") (JNum 0))
          (or_else (optProp status "remaining_budget") (Page.rowProp budget "limit"))
          (statusColorOf (optProp status "status")).

End BudgetsView.

(* ===================================================================== *)
(** ** Dashboard and Reports: the budget usage bar *)
(* ===================================================================== *)

Module UsageBar.

(** Percentages are finite numbers, possibly fractional: rationals. *)
Abbreviation Q := QArith_base.Q.
Notation "# z" := (QArith_base.inject_Z z) (at level 1, format "# z").

(** [p <= 75 ? 'bg-green-500' : p <= 90 ? 'bg-yellow-500' : 'bg-red-500'] *)
Definition color (percentage_used : Q) : string :=
  if QArith_base.Qle_bool percentage_used #75 then "bg-green-500"
  else if QArith_base.Qle_bool percentage_used #90 then "bg-yellow-500"
  else "bg-red-500".

(** [Math.min(percentage_used, 100)], the width in percent. *)
Definition width (percentage_used : Q) : Q :=
  Qminmax.Qmin percentage_used #100.

End UsageBar.

(* ===================================================================== *)
(** ** App.tsx and the sidebar: the route table and the links into it *)
(* ===================================================================== *)

Module App.

Inductive Element :=
  | Login | Register | Layout
  | Dashboard | Transactions | Budgets | Reports | Settings
  | Navigate (to : string).

(** A [<Route>]: [path] is absent for an index route. *)
Inductive Route :=
  | route (path : option string) (element : Element) (children : list Route).

(** What [App] returns: the spinner while the session is loading, else the
    route table for the current [user]. *)
Definition routes (loading : bool) (user : jsval) : option (list Route) :=
  if loading then None
  else Some
    ([ route (Some "/login")
         (if truthy user then Navigate "/dashboard" else Login) [];
       route (Some "/register")
         (if truthy user then Navigate "/dashboard" else Register) [] ]
     ++
     (if truthy user
      then [ route (Some "/") Layout
               [ route None (Navigate "/dashboard") [];
                 route (Some "dashboard") Dashboard [];
                 route (Some "transactions") Transactions [];
                 route (Some "budgets") Budgets [];
                 route (Some "reports") Reports [];
                 route (Some "settings") Settings [] ] ]
      else [ route (Some "*") (Navigate "/login") [] ])).

(** The path of a child under its parent: segments are joined by one slash
    and an index route has its parent's path. *)
Definition childPath (parent : string) (child : option string) : string :=
  match child with
  | None => parent
  | Some p => if decide (parent = "/") then "/" +:+ p else parent +:+ "/" +:+ p
  end.

(** Every mounted element with its full path: a child route is only ever
    rendered inside its parent's element. *)
Definition mounted (rs : list Route) : list (string * Element) :=
  flat_map (λ r, match r with
                 | route p el children =>
                     let here := default "" p in
                     (here, el) ::
                     ((λ c, match c with
                            | route cp cel _ => (childPath here cp, cel)
                            end) <$> children)
                 end) rs.

(** The [href]s of the sidebar's [navigation] array, in order. *)
Definition navigation : list string :=
  [ "/dashboard"; "/transactions"; "/budgets"; "/reports"; "/settings" ].

Definition isPage (el : Element) : bool :=
  match el with
  | Dashboard | Transactions | Budgets | Reports | Settings => true
  | _ => false
  end.

End App.

(* ===================================================================== *)
(** ** Path shapes *)
(* ===================================================================== *)

Module Paths.

(** What is left of a path once its final slash is taken off; nothing if it
    does not end in one. *)
Fixpoint stem_of (s : string) : option string :=
  match s with
  | "" => None
  | String x rest =>
      match rest with
      | "" => if decide (String x "" = "/") then Some "" else None
      | _ => String x <$> stem_of rest
      end
  end.

(** [Number.isSafeInteger]: the whole numbers a JavaScript number holds
    exactly, from [-(2^53 - 1)] to [2^53 - 1]. *)
Definition isSafeInteger (n : Z) : Prop :=
  - (2 ^ 53 - 1) ≤ n ≤ 2 ^ 53 - 1.

End Paths.
Import Paths.

(* ===================================================================== *)
(** ** Properties of the request pipeline *)
(* ===================================================================== *)

Section Pipeline.

Implicit Types (s : ApiService) (c : RequestConfig) (w : World) (n : Net)
               (r : Response) (e : AxiosError).

(** *** Storage *)

Lemma getItem_removeItem k k' w :
  getItem k (removeItem k' w) = if decide (k' = k) then None else getItem k w.
Proof. unfold getItem, removeItem; simpl. apply lookup_delete. Qed.

Lemma getItem_set_location_href k u w :
  getItem k (set_location_href u w) = getItem k w.
Proof. reflexivity. Qed.

Lemma tokenStore_lookup k w :
  tokenStore w !! k = if decide (isSessionKey k) then getItem k w else None.
Proof.
  unfold tokenStore, getItem.
  destruct (localStorage w !! k) as [v|] eqn:Hk.
  - case_decide as Hs.
    + apply map_lookup_filter_Some; auto.
    + apply map_lookup_filter_None; right. intros v' Hv'. exact Hs.
  - assert (filter (λ kv, isSessionKey kv.1) (localStorage w) !! k = None) as ->.
    { apply map_lookup_filter_None; left; exact Hk. }
    by case_decide.
Qed.

(** The Token Store is empty exactly when neither session key is set. *)
Lemma tokenStore_empty_iff w :
  tokenStore w = ∅ ↔ getItem "token" w = None ∧ getItem "user" w = None.
Proof.
  split.
  - intros He. split.
    + pose proof (tokenStore_lookup "token" w) as H.
      rewrite He, lookup_empty in H. rewrite decide_True in H by (left; done). done.
    + pose proof (tokenStore_lookup "user" w) as H.
      rewrite He, lookup_empty in H. rewrite decide_True in H by (right; done). done.
  - intros [Ht Hu]. apply map_eq; intros k.
    rewrite tokenStore_lookup, lookup_empty.
    case_decide as Hs; [|done]. destruct Hs as [-> | ->]; done.
Qed.

(** Forced logout leaves every other storage entry alone. *)
Lemma forced_logout_other_keys k u w :
  ¬ isSessionKey k →
  getItem k (set_location_href u (removeItem "user" (removeItem "token" w)))
  = getItem k w.
Proof.
  intros Hk. rewrite getItem_set_location_href, !getItem_removeItem.
  repeat case_decide; subst; try done; exfalso; apply Hk; [right | left]; done.
Qed.

(** *** Interceptors *)

Lemma isUnauthorized_spec e :
  isUnauthorized e = true ↔ ∃ r, response e = Some r ∧ status r = 401.
Proof.
  unfold isUnauthorized. destruct (response e) as [r|].
  - rewrite bool_decide_eq_true. split; [eauto | intros (? & [= <-] & ?); done].
  - split; [done | intros (? & [=] & _)].
Qed.

Lemma responseRejected_settles {A} e w :
  (responseRejected (A:=A) e w).2 = Rejected e.
Proof. reflexivity. Qed.

Lemma responseRejected_unauthorized {A} e w :
  isUnauthorized e = true →
  (responseRejected (A:=A) e w).1
  = set_location_href "/login" (removeItem "user" (removeItem "token" w)).
Proof. unfold responseRejected. by intros ->. Qed.

Lemma responseRejected_other {A} e w :
  isUnauthorized e = false → responseRejected (A:=A) e w = (w, Rejected e).
Proof. unfold responseRejected. by intros ->. Qed.

Lemma settle_rejects c r :
  validateStatus (status r) = false →
  settle c (Responded r) = Rejected (mkError c (Some r)).
Proof. unfold settle. by intros ->. Qed.

Lemma validateStatus_401 : validateStatus 401 = false.
Proof. reflexivity. Qed.

(** A request whose answer is rejected by status goes on the wire once and
    ends in the rejected branch of the response interceptor. *)
Lemma request_rejected s c w n r :
  server n (outgoing s w c) = Responded r →
  validateStatus (status r) = false →
  request s c w n =
    let e := mkError (outgoing s w c) (Some r) in
    ((responseRejected (A:=Response) e w).1,
     mkNet (sent n ++ [outgoing s w c]) (server n),
     Rejected e).
Proof.
  intros Hr Hv. unfold request, transmit. rewrite Hr, (settle_rejects _ _ Hv).
  reflexivity.
Qed.

Lemma request_fulfilled s c w n r :
  server n (outgoing s w c) = Responded r →
  validateStatus (status r) = true →
  request s c w n =
    (w, mkNet (sent n ++ [outgoing s w c]) (server n), Fulfilled r).
Proof.
  intros Hr Hv. unfold request, transmit, settle. rewrite Hr, Hv. reflexivity.
Qed.

(** Whatever the server does, a call puts exactly one request on the wire. *)
Lemma request_single_attempt s c w n :
  sent (request s c w n).1.2 = sent n ++ [outgoing s w c].
Proof.
  unfold request, transmit.
  destruct (settle (outgoing s w c) (server n (outgoing s w c))); reflexivity.
Qed.

End Pipeline.

(* ===================================================================== *)
(** ** Authentication-rejected responses *)
(* ===================================================================== *)

(** C1. For every response with status 401, whichever request it answers,
    the response interceptor removes the ['token'] and ['user'] entries and
    sends the browser to ['/login']: the Token Store is empty as soon as the
    response has been handled. *)
Theorem unauthorized_empties_token_store
    (s : ApiService) (c : RequestConfig) (w : World) (n : Net) (r : Response) :
  server n (outgoing s w c) = Responded r →
  status r = 401 →
  let w' := (request s c w n).1.1 in
  getItem "token" w' = None ∧ getItem "user" w' = None ∧
  tokenStore w' = ∅ ∧ location_href w' = "/login".
Proof.
  intros Hr H401 w'.
  assert (Hv : validateStatus (status r) = false) by (rewrite H401; reflexivity).
  assert (Hw : w' = set_location_href "/login"
                      (removeItem "user" (removeItem "token" w))).
  { subst w'. rewrite (request_rejected _ _ _ _ _ Hr Hv). simpl.
    apply (responseRejected_unauthorized (A:=Response)).
    apply isUnauthorized_spec. eauto. }
  assert (Ht : getItem "token" w' = None).
  { rewrite Hw, getItem_set_location_href, !getItem_removeItem.
    by repeat case_decide. }
  assert (Hu : getItem "user" w' = None).
  { rewrite Hw, getItem_set_location_href, !getItem_removeItem.
    by repeat case_decide. }
  repeat split; try done.
  - by apply tokenStore_empty_iff.
  - by rewrite Hw.
Qed.

Lemma unauthorized_empties_token_store_witness :
  let n := Samples.always 401 JNull in
  let c := getTransactions None in
  let w' := (request Samples.service c Samples.signedIn n).1.1 in
  tokenStore Samples.signedIn ≠ ∅ ∧
  (getItem "token" w' = None ∧ getItem "user" w' = None ∧
   tokenStore w' = ∅ ∧ location_href w' = "/login").
Proof.
  split.
  - intros He. apply tokenStore_empty_iff in He as [Ht _]. discriminate Ht.
  - apply (unauthorized_empties_token_store Samples.service (getTransactions None)
             Samples.signedIn (Samples.always 401 JNull) (mkResponse 401 JNull));
      reflexivity.
Defined.

(** The language preference survives the forced logout. *)
Example forced_logout_keeps_language :
  getItem "language"
    (request Samples.service getBudgets Samples.signedIn
       (Samples.always 401 JNull)).1.1 = Some "fa".
Proof. reflexivity. Qed.

(** C9. For every response with status 401, the response interceptor, having
    cleared the Token Store and redirected to the login page, still rejects
    with the error it was given: the caller sees the failure too. *)
Theorem unauthorized_still_rejects
    (s : ApiService) (c : RequestConfig) (w : World) (n : Net) (r : Response) :
  server n (outgoing s w c) = Responded r →
  status r = 401 →
  ∃ e, settle (outgoing s w c) (Responded r) = Rejected e ∧
       response e = Some r ∧
       (request s c w n).2 = Rejected e ∧
       (request s c w n).1.1 = (responseRejected (A:=Response) e w).1 ∧
       (responseRejected (A:=Response) e w).1 =
         set_location_href "/login" (removeItem "user" (removeItem "token" w)) ∧
       (responseRejected (A:=Response) e w).2 = Rejected e.
Proof.
  intros Hr H401.
  assert (Hv : validateStatus (status r) = false) by (rewrite H401; reflexivity).
  exists (mkError (outgoing s w c) (Some r)).
  rewrite (request_rejected _ _ _ _ _ Hr Hv). simpl.
  repeat split.
  - by apply settle_rejects.
  - apply (responseRejected_unauthorized (A:=Response)).
    apply isUnauthorized_spec. eauto.
Qed.

Lemma unauthorized_still_rejects_witness :
  let s := Samples.service in
  let c := createBudget (JObj {[ "category" := JStr "food" ]}) in
  let w := Samples.signedIn in
  let n := Samples.always 401 (JObj {[ "detail" := JStr "Invalid token." ]}) in
  let r := mkResponse 401 (JObj {[ "detail" := JStr "Invalid token." ]}) in
  ∃ e, settle (outgoing s w c) (Responded r) = Rejected e ∧
       response e = Some r ∧
       (request s c w n).2 = Rejected e ∧
       (request s c w n).1.1 = (responseRejected (A:=Response) e w).1 ∧
       (responseRejected (A:=Response) e w).1 =
         set_location_href "/login" (removeItem "user" (removeItem "token" w)) ∧
       (responseRejected (A:=Response) e w).2 = Rejected e.
Proof.
  intros s c w n r.
  apply (unauthorized_still_rejects s c w n r); reflexivity.
Defined.

(* ===================================================================== *)
(** ** Other failures *)
(* ===================================================================== *)

(** C6. For every request answered with a status outside 2xx other than
    401, the client makes exactly one network attempt and hands the caller a
    rejected promise carrying the error the response produced; storage and
    location are as they were. *)
Theorem other_failures_pass_through
    (s : ApiService) (c : RequestConfig) (w : World) (n : Net) (r : Response) :
  server n (outgoing s w c) = Responded r →
  validateStatus (status r) = false →
  status r ≠ 401 →
  ∃ e, settle (outgoing s w c) (Responded r) = Rejected e ∧
       response e = Some r ∧
       request s c w n =
         (w, mkNet (sent n ++ [outgoing s w c]) (server n), Rejected e).
Proof.
  intros Hr Hv H401.
  exists (mkError (outgoing s w c) (Some r)). repeat split.
  - by apply settle_rejects.
  - rewrite (request_rejected _ _ _ _ _ Hr Hv). cbv zeta.
    rewrite (responseRejected_other (A:=Response)); [done|].
    unfold isUnauthorized; simpl. by apply bool_decide_eq_false.
Qed.

Lemma other_failures_pass_through_witness :
  let s := Samples.service in
  let c := deleteTransaction 7 in
  let w := Samples.signedIn in
  let n := Samples.always 500 (JStr "Server Error") in
  let r := mkResponse 500 (JStr "Server Error") in
  ∃ e, settle (outgoing s w c) (Responded r) = Rejected e ∧
       response e = Some r ∧
       request s c w n =
         (w, mkNet (sent n ++ [outgoing s w c]) (server n), Rejected e).
Proof.
  intros s c w n r.
  apply (other_failures_pass_through s c w n r); [reflexivity | reflexivity | simpl; lia].
Defined.

(** A request that gets no response at all is treated the same way. *)
Lemma network_failure_passes_through
    (s : ApiService) (c : RequestConfig) (w : World) (n : Net) :
  server n (outgoing s w c) = NoResponse →
  request s c w n =
    (w, mkNet (sent n ++ [outgoing s w c]) (server n),
     Rejected (mkError (outgoing s w c) None)).
Proof. intros Hr. unfold request, transmit. rewrite Hr. reflexivity. Qed.

(* ===================================================================== *)
(** ** The Authorization header *)
(* ===================================================================== *)

(** No method of the service passes an Authorization header of its own. *)
Lemma descriptor_no_authorization (c : ApiCall) :
  headers (descriptor c) !! "Authorization" = None.
Proof. destruct c; reflexivity. Qed.

Lemma mergeConfig_header (d : Defaults) (c : RequestConfig) (k : string) :
  headers (mergeConfig d c) !! k =
    match headers c !! k with
    | Some v => Some v
    | None => defaultHeaders d !! k
    end.
Proof.
  unfold mergeConfig; simpl. rewrite lookup_union.
  destruct (headers c !! k), (defaultHeaders d !! k); reflexivity.
Qed.

(** The request interceptor on its own: a non-empty stored token replaces
    the header, anything else leaves the configuration as it came. *)
Lemma requestFulfilled_authorization (w : World) (c : RequestConfig) :
  headers (requestFulfilled w c) !! "Authorization" =
    match getItem "token" w with
    | Some token =>
        if truthyStr token then Some ("Token " +:+ token)
        else headers c !! "Authorization"
    | None => headers c !! "Authorization"
    end.
Proof.
  unfold requestFulfilled. destruct (getItem "token" w) as [token|]; [|done].
  destruct (truthyStr token); [|done]. simpl. apply lookup_insert_eq.
Qed.

Lemma requestFulfilled_other_header (w : World) (c : RequestConfig) (k : string) :
  k ≠ "Authorization" →
  headers (requestFulfilled w c) !! k = headers c !! k.
Proof.
  intros Hk. unfold requestFulfilled.
  destruct (getItem "token" w) as [token|]; [|done].
  destruct (truthyStr token); [|done]. simpl. by apply lookup_insert_ne.
Qed.

Lemma requestFulfilled_rest (w : World) (c : RequestConfig) :
  url (requestFulfilled w c) = url c ∧
  method (requestFulfilled w c) = method c ∧
  params (requestFulfilled w c) = params c ∧
  data (requestFulfilled w c) = data c ∧
  responseType (requestFulfilled w c) = responseType c.
Proof.
  unfold requestFulfilled. destruct (getItem "token" w) as [token|]; [|done].
  by destruct (truthyStr token).
Qed.

(** What [setAuthToken] leaves in the instance defaults. *)
Lemma setAuthToken_default (token : option string) (s : ApiService) :
  defaultHeaders (api (setAuthToken token s)) !! "Authorization" =
    match token with
    | Some t => if truthyStr t then Some ("Token " +:+ t) else None
    | None => None
    end.
Proof.
  unfold setAuthToken. destruct token as [t|]; simpl.
  - destruct (truthyStr t); simpl; [apply lookup_insert_eq | apply lookup_delete_eq].
  - apply lookup_delete_eq.
Qed.

Lemma new_no_default_authorization (env : option string) :
  defaultHeaders (api (new env)) !! "Authorization" = None.
Proof. reflexivity. Qed.

(** C2, as amended. For every outgoing request: if localStorage holds a
    non-empty ['token'] at dispatch time, the request carries the header
    [Authorization: Token <token>]; otherwise the request interceptor adds
    nothing, and the request carries the Authorization header installed in
    the instance defaults by [setAuthToken] if there is one, and none if
    there is not. *)
Theorem authorization_header (s : ApiService) (w : World) (c : ApiCall) :
  headers (outgoing s w (descriptor c)) !! "Authorization" =
    match getItem "token" w with
    | Some token =>
        if truthyStr token then Some ("Token " +:+ token)
        else defaultHeaders (api s) !! "Authorization"
    | None => defaultHeaders (api s) !! "Authorization"
    end.
Proof.
  unfold outgoing.
  rewrite requestFulfilled_authorization, mergeConfig_header,
    descriptor_no_authorization.
  reflexivity.
Qed.

(** C2, as stated, fails: with no token in localStorage, a request still
    carries an Authorization header once [setAuthToken] has installed one in
    the instance defaults. *)
Lemma authorization_without_stored_token :
  let s := setAuthToken (Some "abc123") (new None) in
  let w := Samples.signedOut in
  getItem "token" w = None ∧
  headers (outgoing s w (descriptor GetCurrentUser)) !! "Authorization"
    = Some "Token abc123".
Proof. split; reflexivity. Qed.

(** A token stored as the empty string is present in localStorage and
    attaches nothing. *)
Example empty_token_attaches_nothing :
  let w := setItem "token" "" Samples.signedOut in
  getItem "token" w = Some "" ∧
  headers (outgoing (new None) w (descriptor GetBudgets)) !! "Authorization" = None.
Proof. split; reflexivity. Qed.

(** On a fresh instance the header follows the stored token alone. *)
Corollary authorization_header_fresh (env : option string) (w : World) (c : ApiCall) :
  headers (outgoing (new env) w (descriptor c)) !! "Authorization" =
    match getItem "token" w with
    | Some token => if truthyStr token then Some ("Token " +:+ token) else None
    | None => None
    end.
Proof.
  unfold outgoing.
  rewrite requestFulfilled_authorization, mergeConfig_header,
    descriptor_no_authorization, new_no_default_authorization.
  reflexivity.
Qed.

(* ===================================================================== *)
(** ** Uploads and binary downloads *)
(* ===================================================================== *)

(** C7. The CSV upload is sent as multipart form data, not under the default
    JSON content type, and the chart export asks for a ['blob'] response. *)
Theorem upload_is_multipart_and_export_is_blob
    (s : ApiService) (w : World) (file : File)
    (type : string) (p : option (gmap string jsval)) :
  headers (outgoing s w (importTransactionsCSV file)) !! "Content-Type"
    = Some "multipart/form-data" ∧
  data (outgoing s w (importTransactionsCSV file)) = FormData [("file", file)] ∧
  responseType (outgoing s w (downloadChart type p)) = Some Blob.
Proof.
  unfold outgoing. repeat split.
  - rewrite requestFulfilled_other_header by done.
    rewrite mergeConfig_header. reflexivity.
  - destruct (requestFulfilled_rest w
      (mergeConfig (api s) (importTransactionsCSV file))) as (_ & _ & _ & -> & _).
    reflexivity.
  - destruct (requestFulfilled_rest w
      (mergeConfig (api s) (downloadChart type p))) as (_ & _ & _ & _ & ->).
    reflexivity.
Qed.

(** Every other call goes out under the instance default and expects JSON. *)
Lemma default_content_type (env : option string) (w : World) (c : ApiCall) :
  (∀ f, c ≠ ImportTransactionsCSV f) →
  headers (outgoing (new env) w (descriptor c)) !! "Content-Type"
    = Some "application/json".
Proof.
  intros Hc. unfold outgoing.
  rewrite requestFulfilled_other_header by done. rewrite mergeConfig_header.
  destruct c; try reflexivity. by destruct (Hc file).
Qed.

Lemma default_response_type (c : ApiCall) :
  (∀ t p, c ≠ DownloadChart t p) → responseType (descriptor c) = None.
Proof. intros Hc. destruct c; try reflexivity. by destruct (Hc type p). Qed.

(* ===================================================================== *)
(** ** Query parameters of the chart export *)
(* ===================================================================== *)

Lemma obj_with_spread_lookup (k : string) (v : jsval)
    (o : option (gmap string jsval)) (j : string) :
  obj_with_spread k v o !! j =
    match o ≫= (λ m, m !! j) with
    | Some x => Some x
    | None => if decide (k = j) then Some v else None
    end.
Proof.
  unfold obj_with_spread, spread. rewrite lookup_union.
  destruct o as [m|]; simpl.
  - destruct (m !! j) as [x|]; simpl.
    + by destruct ({[k := v]} !! j).
    + rewrite lookup_singleton. case_decide; reflexivity.
  - rewrite lookup_empty, lookup_singleton. case_decide; reflexivity.
Qed.

(** C10. [downloadChart(type, params)] sends [{ type, ...params }]: a
    ['type'] key inside [params] replaces the explicit argument, and without
    one the explicit argument is sent; every other key of [params] is passed
    through. *)
Theorem downloadChart_params (type : string) (p : option (gmap string jsval)) :
  ∃ q, params (downloadChart type p) = Some q ∧
       q !! "type" = match p ≫= (λ m, m !! "type") with
                     | Some v => Some v
                     | None => Some (JStr type)
                     end ∧
       ∀ k, k ≠ "type" → q !! k = p ≫= (λ m, m !! k).
Proof.
  eexists; split; [reflexivity|]. split.
  - rewrite obj_with_spread_lookup. by rewrite decide_True.
  - intros k Hk. rewrite obj_with_spread_lookup.
    rewrite decide_False by done. by destruct (p ≫= _).
Qed.

Example downloadChart_type_overridden :
  params (downloadChart "pie" (Some {[ "type" := JStr "bar"; "period" := JStr "monthly" ]}))
  = Some {[ "type" := JStr "bar"; "period" := JStr "monthly" ]}.
Proof. vm_compute. reflexivity. Qed.

Example downloadChart_type_explicit :
  params (downloadChart "pie" (Some {[ "period" := JStr "monthly" ]}))
  = Some {[ "type" := JStr "pie"; "period" := JStr "monthly" ]}.
Proof. vm_compute. reflexivity. Qed.

(* ===================================================================== *)
(** ** Mutations *)
(* ===================================================================== *)

Lemma run_app (v : View) (tr1 tr2 : list Effect) :
  run v (tr1 ++ tr2) = run (run v tr1) tr2.
Proof. apply foldl_app. Qed.

Lemma run_cons (v : View) (e : Effect) (tr : list Effect) :
  run v (e :: tr) = run (perform v e) tr.
Proof. reflexivity. Qed.

Lemma run_invalidate_keys (ks : list string) (v : View) :
  toasts (run v (InvalidateQueries <$> ks)) = toasts v ∧
  ∀ k, k ∈ invalidated (run v (InvalidateQueries <$> ks))
       ↔ k ∈ ks ∨ k ∈ invalidated v.
Proof.
  revert v. induction ks as [|k0 ks IH]; intros v.
  - split; [done|]. intros k. rewrite elem_of_nil. tauto.
  - rewrite fmap_cons, run_cons.
    destruct (IH (perform v (InvalidateQueries k0))) as [Ht Hi]. split.
    + rewrite Ht. reflexivity.
    + intros k. rewrite Hi. simpl.
      rewrite elem_of_union, elem_of_singleton, elem_of_cons. tauto.
Qed.

Lemma run_no_invalidate (tr : list Effect) (v : View) :
  Forall (λ e, isInvalidate e = false) tr →
  invalidated (run v tr) = invalidated v.
Proof.
  intros Hall. revert v.
  induction tr as [|e tr IH]; intros v; [done|].
  apply Forall_cons in Hall as [He Hall].
  rewrite run_cons, (IH Hall). by destruct e.
Qed.

Section Mutations.

Variable t : string → string.

Lemma mutate_fulfilled (s : ApiService) (m : Mutation) (w : World) (n : Net)
    (r : Response) :
  server n (outgoing s w (mutationFn m)) = Responded r →
  validateStatus (status r) = true →
  mutate t s m w n =
    (w, mkNet (sent n ++ [outgoing s w (mutationFn m)]) (server n), onSuccess t m).
Proof.
  intros Hr Hv. unfold mutate. by rewrite (request_fulfilled _ _ _ _ _ Hr Hv).
Qed.

Lemma mutate_rejected (s : ApiService) (m : Mutation) (w : World) (n : Net) :
  ∀ e, (request s (mutationFn m) w n).2 = Rejected e →
       (mutate t s m w n).2 = onError t m e.
Proof.
  intros e He. unfold mutate.
  destruct (request s (mutationFn m) w n) as [[w' n'] out]. simpl in *.
  by rewrite He.
Qed.

(** A failed call always ends in the error handler. *)
Lemma mutate_failure (s : ApiService) (m : Mutation) (w : World) (n : Net) :
  settle (outgoing s w (mutationFn m)) (server n (outgoing s w (mutationFn m)))
    = Rejected (mkError (outgoing s w (mutationFn m))
                  (match server n (outgoing s w (mutationFn m)) with
                   | Responded r => Some r
                   | NoResponse => None
                   end)) →
  ∃ e, (request s (mutationFn m) w n).2 = Rejected e ∧
       (mutate t s m w n).2 = onError t m e.
Proof.
  intros Hs. eexists. split; [|apply mutate_rejected];
    unfold request, transmit; rewrite Hs; reflexivity.
Qed.

(** The keys listed for a mutation are the ones its success handler
    invalidates, in the order it does so. *)
Lemma cacheKeys_onSuccess (m : Mutation) :
  invalidations (onSuccess t m) = cacheKeys m.
Proof. destruct m; reflexivity. Qed.

(** The shape of every success handler: the invalidations, the success
    notification, then page-local housekeeping. *)
Lemma onSuccess_shape (m : Mutation) :
  ∃ msg post,
    onSuccess t m = (InvalidateQueries <$> cacheKeys m) ++ Toast Success msg :: post ∧
    Forall (λ e, isInvalidate e = false ∧ isToast e = false) post.
Proof.
  destruct m; simpl; eexists _, _; (split; [reflexivity|]);
    repeat constructor.
Qed.

(** No error handler invalidates anything. *)
Lemma onError_no_invalidation (m : Mutation) (e : AxiosError) :
  Forall (λ x, isInvalidate x = false) (onError t m e).
Proof. destruct m; repeat constructor. Qed.

(** Pages other than Settings show the server's message when the response
    body has a truthy [error] field, else the fallback. *)
Lemma onError_message (m : Mutation) (e : AxiosError) :
  onSettingsPage m = false →
  onError t m e =
    [ Toast Failure (or_else (responseError e) (JStr (fallbackMessage t m))) ].
Proof. destruct m; simpl; done. Qed.

(** The Settings page shows its fixed text whatever the server said. *)
Lemma onError_settings (m : Mutation) (e : AxiosError) :
  onSettingsPage m = true →
  onError t m e = [ Toast Failure (JStr (fallbackMessage t m)) ].
Proof. destruct m; simpl; done. Qed.

End Mutations.

Lemma mutate_sent (t : string → string) (s : ApiService) (m : Mutation)
    (w : World) (n : Net) :
  sent (mutate t s m w n).1.2 = sent n ++ [outgoing s w (mutationFn m)].
Proof.
  unfold mutate. pose proof (request_single_attempt s (mutationFn m) w n) as H.
  by destruct (request s (mutationFn m) w n) as [[w' n'] out].
Qed.

(** C3. For every successful mutation with configured cache keys K, the
    success handler invalidates every key of K and only then shows the
    success notification: the trace is the invalidations of K, then the
    toast; when the toast fires all of K is invalidated and no notification
    has been shown yet, and nothing after it invalidates or notifies. *)
Theorem invalidate_before_success_toast
    (t : string → string) (s : ApiService) (m : Mutation) (w : World) (n : Net)
    (r : Response) :
  server n (outgoing s w (mutationFn m)) = Responded r →
  validateStatus (status r) = true →
  ∃ pre msg post,
    (mutate t s m w n).2 = pre ++ Toast Success msg :: post ∧
    pre = (InvalidateQueries <$> cacheKeys m) ∧
    Forall (λ e, isInvalidate e = false ∧ isToast e = false) post ∧
    ∀ v : View,
      toasts (run v pre) = toasts v ∧
      Forall (λ k, k ∈ invalidated (run v pre)) (cacheKeys m) ∧
      toasts (run v (pre ++ [Toast Success msg])) = toasts v ++ [(Success, msg)].
Proof.
  intros Hr Hv. rewrite (mutate_fulfilled t _ _ _ _ _ Hr Hv). simpl.
  destruct (onSuccess_shape t m) as (msg & post & Hshape & Hpost).
  exists (InvalidateQueries <$> cacheKeys m), msg, post.
  repeat split; try done.
  - apply (run_invalidate_keys (cacheKeys m) v).
  - apply Forall_forall. intros k Hk.
    apply (run_invalidate_keys (cacheKeys m) v). by left.
  - rewrite run_app. simpl.
    by destruct (run_invalidate_keys (cacheKeys m) v) as [-> _].
Qed.

Lemma invalidate_before_success_toast_witness :
  let m := createBudgetMutation (JObj {[ "category" := JStr "food"; "limit" := JNum 200 ]}) in
  let n := Samples.always 201 (JObj {[ "id" := JNum 4 ]}) in
  ∃ pre msg post,
    (mutate Samples.keys Samples.service m Samples.signedIn n).2
      = pre ++ Toast Success msg :: post ∧
    pre = (InvalidateQueries <$> [ "budgets"; "budget-status" ]) ∧
    Forall (λ e, isInvalidate e = false ∧ isToast e = false) post ∧
    ∀ v : View,
      toasts (run v pre) = toasts v ∧
      Forall (λ k, k ∈ invalidated (run v pre)) [ "budgets"; "budget-status" ] ∧
      toasts (run v (pre ++ [Toast Success msg])) = toasts v ++ [(Success, msg)].
Proof.
  intros m n.
  apply (invalidate_before_success_toast Samples.keys Samples.service m
           Samples.signedIn n (mkResponse 201 (JObj {[ "id" := JNum 4 ]})));
    reflexivity.
Defined.

(** Whatever made the mutation fail, the error handler invalidates no cache
    key: the set of invalidated keys is as before. *)
Lemma failed_mutation_invalidates_nothing
    (t : string → string) (m : Mutation) (e : AxiosError) (v : View) :
  invalidations (onError t m e) = [] ∧
  invalidated (run v (onError t m e)) = invalidated v.
Proof.
  split; [by destruct m|].
  apply run_no_invalidate, onError_no_invalidation.
Qed.

(** C4, at the failing input. The alert form of the Settings page is
    submitted with values its fields accept (a listed alert type, a threshold
    between 0 and 100, three checkboxes); the server rejects the request
    with status 400 and a body whose [error] field carries its message; the
    notification shows the fixed text instead.  The profile form fares the
    same.  The same kind of response on the Transactions page shows the
    server's message. *)
Lemma settings_error_drops_server_message :
  let alert := JObj {[ "alert_type" := JStr "threshold"; "threshold" := JNum 75;
                       "enabled" := JBool true; "telegram_enabled" := JBool false;
                       "email_enabled" := JBool false ]} in
  let profile := JObj {[ "username" := JStr "sara";
                         "email" := JStr "sara@example.org";
                         "telegram_chat_id" := JStr "" ]} in
  let transaction := JObj {[ "amount" := JNum 12; "description" := JStr "Lunch";
                             "category" := JStr "food"; "date" := JStr "2024-03-01";
                             "is_income" := JNum 0 ]} in
  let refuse (why : string) := Samples.always 400 (JObj {[ "error" := JStr why ]}) in
  (mutate Samples.keys Samples.service (createAlertMutation alert) Samples.signedIn
     (refuse "An alert of this type already exists")).2
    = [ Toast Failure (JStr "Failed to save alert configuration") ] ∧
  (mutate Samples.keys Samples.service (updateProfileMutation profile) Samples.signedIn
     (refuse "Profile is temporarily unavailable")).2
    = [ Toast Failure (JStr "Failed to update profile") ] ∧
  (mutate Samples.keys Samples.service (createTransactionMutation transaction)
     Samples.signedIn (refuse "Category does not exist")).2
    = [ Toast Failure (JStr "Category does not exist") ].
Proof. repeat split; reflexivity. Qed.

(** C5. The profile mutation of the Settings page calls [getCurrentUser]:
    whatever the form holds, submitting it puts exactly one request on the
    wire, a [GET /users/me/] without body or query, and two submissions with
    different form data cannot be told apart. *)
Theorem updateProfile_issues_read
    (t : string → string) (s : ApiService) (d : jsval) (w : World) (n : Net) :
  mutationFn (updateProfileMutation d) = getCurrentUser ∧
  sent (request s (mutationFn (updateProfileMutation d)) w n).1.2
    = sent n ++ [outgoing s w getCurrentUser] ∧
  method (outgoing s w getCurrentUser) = GET ∧
  url (outgoing s w getCurrentUser) = "/users/me/" ∧
  data (outgoing s w getCurrentUser) = NoBody ∧
  params (outgoing s w getCurrentUser) = None ∧
  (∀ d', mutate t s (updateProfileMutation d') w n
         = mutate t s (updateProfileMutation d) w n) ∧
  sent (mutate t s (updateProfileMutation d) w n).1.2
    = sent n ++ [outgoing s w getCurrentUser].
Proof.
  split; [reflexivity|]. split; [apply request_single_attempt|].
  destruct (requestFulfilled_rest w (mergeConfig (api s) getCurrentUser))
    as (Hu & Hm & Hp & Hd & _).
  unfold outgoing. rewrite Hu, Hm, Hp, Hd. repeat split.
  apply (mutate_sent t s (updateProfileMutation d) w n).
Qed.

Example updateProfile_sample :
  sent (mutate Samples.keys Samples.service
          (updateProfileMutation (JObj {[ "email" := JStr "new@example.org" ]}))
          Samples.signedIn (Samples.always 200 JNull)).1.2
  = [ mkConfig (Some "http://localhost:8000/api") "/users/me/" GET
        {[ "Content-Type" := "application/json";
           "Authorization" := "Token abc123" ]}
        None NoBody None ].
Proof. vm_compute. reflexivity. Qed.

(* ===================================================================== *)
(** ** The language preference *)
(* ===================================================================== *)

(** X1. A language chosen with [changeLanguage] comes back on the next page
    load: the mount effect reads the key that [changeLanguage] wrote and
    restores language, direction and i18n language, as long as the language
    code is not the empty string. *)
Theorem changeLanguage_survives_reload (lang : string) (w : World) :
  lang ≠ "" →
  Language.mount (Language.changeLanguage lang w).2
  = (Language.changeLanguage lang w).1.
Proof.
  intros Hl. unfold Language.mount, Language.changeLanguage, getItem, setItem.
  simpl. rewrite lookup_insert_eq. unfold truthyStr.
  by rewrite decide_False.
Qed.

Lemma changeLanguage_survives_reload_witness :
  "fa" ≠ "" ∧
  Language.mount (Language.changeLanguage "fa" Samples.signedIn).2
  = (Language.changeLanguage "fa" Samples.signedIn).1.
Proof.
  split; [discriminate|].
  apply (changeLanguage_survives_reload "fa" Samples.signedIn). discriminate.
Defined.

(** X2. With nothing saved, or with the empty string saved, the provider
    starts in English, left to right; and whatever is saved, the direction
    is right-to-left exactly for ['fa']. *)
Theorem mount_defaults (w : World) :
  (getItem "language" w = None ∨ getItem "language" w = Some "" →
   Language.mount w = Language.mkState "en" Language.ltr "en") ∧
  (Language.direction (Language.mount w) = Language.rtl
   ↔ Language.language (Language.mount w) = "fa") ∧
  Language.i18nLanguage (Language.mount w) = Language.language (Language.mount w).
Proof.
  unfold Language.mount. split; [|split].
  - intros [-> | ->]; reflexivity.
  - simpl. unfold Language.directionOf. case_decide; split; try done.
  - reflexivity.
Qed.

(** X3. The header toggle always lands on ['en'] or ['fa']; two toggles in a
    row bring back the language one started from exactly when that language
    was ['en'] or ['fa']. *)
Theorem toggleLanguage_twice (st : Language.State) (w : World) :
  let '(st1, w1) := Language.toggleLanguage st w in
  let '(st2, w2) := Language.toggleLanguage st1 w1 in
  (Language.language st1 = "en" ∨ Language.language st1 = "fa") ∧
  (Language.language st2 = Language.language st
   ↔ Language.language st = "en" ∨ Language.language st = "fa") ∧
  getItem "language" w2 = Some (Language.language st2).
Proof.
  unfold Language.toggleLanguage, Language.changeLanguage, getItem, setItem.
  simpl. rewrite lookup_insert_eq.
  destruct (decide (Language.language st = "en")) as [He|He]; simpl.
  - rewrite He. split; [by right|]. split; [|done]. split; [by left | done].
  - split; [by left|]. split; [|done]. split.
    + intros Hf. by right.
    + intros [H|H]; [done | by rewrite H].
Qed.

(** X4. Changing the language in Settings writes the ['language'] key and
    nothing else: the entry holds the new language, every other storage
    entry is exactly as it was (so the Token Store is unchanged), the
    location is unchanged, the direction follows the new language, and one
    success notification is shown. *)
Theorem changeLanguage_keeps_session (lang : string) (w : World) :
  let '(st, w', shown) := Language.handleLanguageChange lang w in
  localStorage w' = <["language" := lang]> (localStorage w) ∧
  (∀ k, k ≠ "language" → getItem k w' = getItem k w) ∧
  getItem "language" w' = Some lang ∧
  tokenStore w' = tokenStore w ∧
  location_href w' = location_href w ∧
  Language.language st = lang ∧
  Language.direction st = Language.directionOf lang ∧
  shown = [ Toast Success (JStr "Language changed successfully") ].
Proof.
  simpl.
  assert (Hother : ∀ k, k ≠ "language" →
            getItem k (setItem "language" lang w) = getItem k w).
  { intros k Hk. unfold getItem, setItem; simpl. by apply lookup_insert_ne. }
  split; [reflexivity|]. split; [exact Hother|].
  split; [apply lookup_insert_eq|]. split; [|by repeat split].
  apply map_eq. intros k. rewrite !tokenStore_lookup.
  case_decide as Hk; [|done].
  apply Hother. intros ->. destruct Hk; discriminate.
Qed.

(* ===================================================================== *)
(** ** More on the request pipeline *)
(* ===================================================================== *)

Lemma request_world (s : ApiService) (c : RequestConfig) (w : World) (n : Net) :
  (request s c w n).1.1 = w ∨
  ((∃ r, server n (outgoing s w c) = Responded r ∧ status r = 401) ∧
   (request s c w n).1.1 =
     set_location_href "/login" (removeItem "user" (removeItem "token" w))).
Proof.
  unfold request, transmit.
  destruct (server n (outgoing s w c)) as [|r] eqn:Hr; simpl; [by left|].
  destruct (validateStatus (status r)) eqn:Hv; simpl; [by left|].
  unfold responseRejected, isUnauthorized; simpl.
  case_bool_decide as H401; [right | by left].
  split; [eauto | reflexivity].
Qed.

(** X5. A 2xx response reaches the caller as it arrived: the promise is
    fulfilled with that very response, one request went on the wire, and
    storage and location are untouched. *)
Theorem fulfilled_response_passes_through
    (s : ApiService) (c : RequestConfig) (w : World) (n : Net) (r : Response) :
  server n (outgoing s w c) = Responded r →
  200 ≤ status r < 300 →
  request s c w n =
    (w, mkNet (sent n ++ [outgoing s w c]) (server n), Fulfilled r).
Proof.
  intros Hr Hs. apply request_fulfilled; [done|].
  unfold validateStatus. by apply bool_decide_eq_true.
Qed.

Lemma fulfilled_response_passes_through_witness :
  let c := getBudgets in
  let r := mkResponse 200 (JObj {[ "results" := JArr [] ]}) in
  let n := Samples.always 200 (JObj {[ "results" := JArr [] ]}) in
  request Samples.service c Samples.signedIn n =
    (Samples.signedIn,
     mkNet (sent n ++ [outgoing Samples.service Samples.signedIn c]) (server n),
     Fulfilled r).
Proof.
  intros c r n.
  apply (fulfilled_response_passes_through Samples.service c Samples.signedIn n r);
    [reflexivity | simpl; lia].
Defined.

(** X6. When no response arrives the caller gets a rejection whose error has
    no response; the missing response is not mistaken for a 401: storage and
    location stay as they were, and nothing is sent a second time. *)
Theorem unreachable_server_rejects_quietly
    (s : ApiService) (c : RequestConfig) (w : World) (n : Net) :
  server n (outgoing s w c) = NoResponse →
  ∃ e, response e = None ∧ isUnauthorized e = false ∧
       request s c w n =
         (w, mkNet (sent n ++ [outgoing s w c]) (server n), Rejected e).
Proof.
  intros Hr. exists (mkError (outgoing s w c) None).
  repeat split. by apply network_failure_passes_through.
Qed.

Lemma unreachable_server_rejects_quietly_witness :
  let c := createTransaction (JObj {[ "amount" := JNum 12 ]}) in
  ∃ e, response e = None ∧ isUnauthorized e = false ∧
       request Samples.service c Samples.signedIn Samples.offline =
         (Samples.signedIn,
          mkNet (sent Samples.offline ++ [outgoing Samples.service Samples.signedIn c])
                (server Samples.offline),
          Rejected e).
Proof.
  intros c.
  apply (unreachable_server_rejects_quietly Samples.service c Samples.signedIn
           Samples.offline).
  reflexivity.
Defined.

(** X7. Whatever the server answers, a call through the service never changes
    a storage entry other than ['token'] and ['user'], and the only place it
    ever navigates to is ['/login']. *)
Theorem request_touches_only_session_keys
    (s : ApiService) (c : RequestConfig) (w : World) (n : Net) (k : string) :
  ¬ isSessionKey k →
  getItem k (request s c w n).1.1 = getItem k w ∧
  (location_href (request s c w n).1.1 = location_href w ∨
   location_href (request s c w n).1.1 = "/login").
Proof.
  intros Hk. destruct (request_world s c w n) as [-> | [_ ->]].
  - split; [done | by left].
  - split; [by apply forced_logout_other_keys | by right].
Qed.

Lemma request_touches_only_session_keys_witness :
  let w' := (request Samples.service getAlertConfigs Samples.signedIn
               (Samples.always 401 JNull)).1.1 in
  ¬ isSessionKey "language" ∧
  (getItem "language" w' = getItem "language" Samples.signedIn ∧
   (location_href w' = location_href Samples.signedIn ∨
    location_href w' = "/login")).
Proof.
  assert (H : ¬ isSessionKey "language") by (intros [?|?]; discriminate).
  split; [exact H|].
  apply (request_touches_only_session_keys Samples.service getAlertConfigs
           Samples.signedIn (Samples.always 401 JNull) "language" H).
Defined.

(** X8. Only a 401 changes the browser state: if the server does not answer
    with status 401 (any other status, or no answer), storage and location
    after the call are exactly what they were before. *)
Theorem only_unauthorized_changes_world
    (s : ApiService) (c : RequestConfig) (w : World) (n : Net) :
  (∀ r, server n (outgoing s w c) = Responded r → status r ≠ 401) →
  (request s c w n).1.1 = w.
Proof.
  intros Hno. destruct (request_world s c w n) as [-> | [(r & Hr & H401) _]];
    [done|]. by destruct (Hno r Hr).
Qed.

Lemma only_unauthorized_changes_world_witness :
  (request Samples.service (deleteBudget 3) Samples.signedIn
     (Samples.always 403 (JObj {[ "detail" := JStr "Forbidden" ]}))).1.1
  = Samples.signedIn.
Proof.
  apply (only_unauthorized_changes_world Samples.service (deleteBudget 3)
           Samples.signedIn
           (Samples.always 403 (JObj {[ "detail" := JStr "Forbidden" ]}))).
  intros r Hr. simpl in Hr. injection Hr as <-. simpl. lia.
Defined.

(** X9. The forced logout is idempotent: a second 401, from whatever request,
    finds the state the first one left and leaves it exactly so. *)
Theorem forced_logout_idempotent (e e' : AxiosError) (w : World) :
  isUnauthorized e = true →
  isUnauthorized e' = true →
  (responseRejected (A:=Response) e' (responseRejected (A:=Response) e w).1).1
  = (responseRejected (A:=Response) e w).1.
Proof.
  intros He He'.
  rewrite !(responseRejected_unauthorized (A:=Response)) by done.
  unfold set_location_href, removeItem; simpl. f_equal.
  apply map_eq. intros k. rewrite !lookup_delete.
  by repeat case_decide.
Qed.

Lemma forced_logout_idempotent_witness :
  let e := mkError getBudgets (Some (mkResponse 401 JNull)) in
  let e' := mkError getTransactionCategories (Some (mkResponse 401 JNull)) in
  (responseRejected (A:=Response) e'
     (responseRejected (A:=Response) e Samples.signedIn).1).1
  = (responseRejected (A:=Response) e Samples.signedIn).1.
Proof.
  intros e e'.
  apply (forced_logout_idempotent e e' Samples.signedIn); reflexivity.
Defined.


(** X10. Apart from the Authorization header the request interceptor passes
    the configuration through: URL, method, query, body and response type
    are those of the call, and every other header is the per-call header if
    the call set one, else the instance default. *)
Theorem outgoing_preserves_call
    (s : ApiService) (w : World) (c : RequestConfig) :
  url (outgoing s w c) = url c ∧
  method (outgoing s w c) = method c ∧
  params (outgoing s w c) = params c ∧
  data (outgoing s w c) = data c ∧
  responseType (outgoing s w c) = responseType c ∧
  baseURL (outgoing s w c) = Some (default (defaultBaseURL (api s)) (baseURL c)) ∧
  ∀ k, k ≠ "Authorization" →
       headers (outgoing s w c) !! k =
         match headers c !! k with
         | Some v => Some v
         | None => defaultHeaders (api s) !! k
         end.
Proof.
  unfold outgoing.
  destruct (requestFulfilled_rest w (mergeConfig (api s) c))
    as (-> & -> & -> & -> & ->).
  repeat split.
  - unfold requestFulfilled. destruct (getItem "token" w) as [tok|]; [|done].
    by destruct (truthyStr tok).
  - intros k Hk. rewrite requestFulfilled_other_header by done.
    apply mergeConfig_header.
Qed.

Lemma outgoing_base (s : ApiService) (w : World) (c : RequestConfig) :
  baseURL (outgoing s w c) = Some (default (defaultBaseURL (api s)) (baseURL c)).
Proof.
  unfold outgoing, requestFulfilled.
  destruct (getItem "token" w) as [tok|]; [|done]. by destruct (truthyStr tok).
Qed.

(* ===================================================================== *)
(** ** The instance defaults and the endpoint table *)
(* ===================================================================== *)

Lemma setAuthToken_cases (token : option string) (s : ApiService) :
  setAuthToken token s =
    mkService (mkDefaults (defaultBaseURL (api s))
      (match token with
       | Some t =>
           if truthyStr t
           then <["Authorization" := "Token " +:+ t]> (defaultHeaders (api s))
           else delete "Authorization" (defaultHeaders (api s))
       | None => delete "Authorization" (defaultHeaders (api s))
       end)).
Proof. unfold setAuthToken. destruct token as [t|]; [by destruct (truthyStr t)|done]. Qed.

(** X11. [setAuthToken] changes the default Authorization header and nothing
    else; the last call wins whatever came before; and clearing the token on
    an instance that never had one gives back the instance as constructed. *)
Theorem setAuthToken_laws (a b : option string) (s : ApiService) (env : option string) :
  defaultBaseURL (api (setAuthToken a s)) = defaultBaseURL (api s) ∧
  (∀ k, k ≠ "Authorization" →
        defaultHeaders (api (setAuthToken a s)) !! k = defaultHeaders (api s) !! k) ∧
  setAuthToken a (setAuthToken b s) = setAuthToken a s ∧
  setAuthToken None (new env) = new env.
Proof.
  split; [|split; [|split]].
  - rewrite setAuthToken_cases. reflexivity.
  - intros k Hk. rewrite setAuthToken_cases. simpl.
    destruct a as [t|]; [destruct (truthyStr t)|].
    + by apply lookup_insert_ne.
    + by apply lookup_delete_ne.
    + by apply lookup_delete_ne.
  - rewrite (setAuthToken_cases a (setAuthToken b s)), (setAuthToken_cases a s),
      (setAuthToken_cases b s). simpl. do 2 f_equal.
    destruct a as [ta|]; [destruct (truthyStr ta)|];
      (destruct b as [tb|]; [destruct (truthyStr tb)|]);
      first [ apply insert_insert_eq | apply insert_delete_eq
            | apply delete_insert_eq | apply delete_delete_eq ].
  - rewrite setAuthToken_cases. reflexivity.
Qed.

(** X12. The base URL is never empty: an unset or empty [REACT_APP_API_URL]
    falls back to the local default, any other value is used as given, and
    every call of the service goes out under that base URL. *)
Theorem base_url_never_empty (env : option string) (w : World) (c : ApiCall) :
  API_BASE_URL env ≠ "" ∧
  (∀ u, env = Some u → u ≠ "" → API_BASE_URL env = u) ∧
  (env = None ∨ env = Some "" → API_BASE_URL env = "http://localhost:8000/api") ∧
  baseURL (outgoing (new env) w (descriptor c)) = Some (API_BASE_URL env).
Proof.
  split; [|split; [|split]].
  - unfold API_BASE_URL, truthyStr. destruct env as [u|]; [|done].
    by case_decide.
  - intros u -> Hu. unfold API_BASE_URL, truthyStr. by rewrite decide_False.
  - intros [-> | ->]; reflexivity.
  - rewrite outgoing_base. by destruct c.
Qed.

(** Strings: appending is associative and a trailing slash can be cancelled. *)
Lemma string_app_cons (x : Ascii.ascii) (a b : string) :
  String x a +:+ b = String x (a +:+ b).
Proof. reflexivity. Qed.

Lemma string_app_assoc (a b c : string) : (a +:+ b) +:+ c = a +:+ (b +:+ c).
Proof.
  induction a as [|x a IH]; [reflexivity|].
  by rewrite !string_app_cons, IH.
Qed.

Lemma string_app_slash_inj (a b : string) : a +:+ "/" = b +:+ "/" → a = b.
Proof.
  revert b. induction a as [|x a IH]; intros [|y b] H.
  - done.
  - rewrite string_app_cons in H. injection H as _ H. by destruct b.
  - rewrite string_app_cons in H. injection H as _ H. by destruct a.
  - rewrite !string_app_cons in H. injection H as -> H. f_equal. by apply IH.
Qed.


Lemma stem_of_Some (s stem : string) : stem_of s = Some stem → s = stem +:+ "/".
Proof.
  revert stem. induction s as [|x rest IH]; intros stem H; [done|].
  simpl in H. destruct rest as [|y rest'].
  - case_decide as Hx; [|done]. injection H as <-. exact Hx.
  - destruct (stem_of (String y rest')) as [st|]; [|done].
    injection H as <-. rewrite string_app_cons. f_equal. by apply IH.
Qed.

(** X14. Every endpoint path is absolute and ends in a slash, also the ones
    built from a record id. *)
Theorem endpoint_paths_are_slash_delimited (c : ApiCall) :
  ∃ inner, url (descriptor c) = "/" +:+ inner ∧
  ∃ stem, url (descriptor c) = stem +:+ "/".
Proof.
  destruct c; simpl; unfold idPath;
    (eexists; split; [reflexivity|]);
    first [ eexists; symmetry; apply string_app_assoc
          | eexists; apply stem_of_Some; reflexivity ].
Qed.

(** X15. Record paths do not collide: for ids that a JavaScript number holds
    exactly (safe integers), two different ids never give the same update or
    delete URL, for transactions, budgets and alert configurations alike. *)
Theorem record_paths_distinct (prefix : string) (a b : Z) :
  isSafeInteger a →
  isSafeInteger b →
  a ≠ b →
  idPath prefix a ≠ idPath prefix b ∧
  url (deleteTransaction a) ≠ url (deleteTransaction b) ∧
  url (deleteBudget a) ≠ url (deleteBudget b) ∧
  url (deleteAlertConfig a) ≠ url (deleteAlertConfig b) ∧
  ∀ d d', url (updateTransaction a d) ≠ url (updateTransaction b d') ∧
          url (updateBudget a d) ≠ url (updateBudget b d') ∧
          url (updateAlertConfig a d) ≠ url (updateAlertConfig b d').
Proof.
  intros _ _ Hab.
  assert (Hinj : ∀ p, idPath p a ≠ idPath p b).
  { intros p H. unfold idPath in H. apply Hab.
    apply (inj (String.app p)) in H. apply string_app_slash_inj in H.
    by apply (inj pretty). }
  repeat split; try apply Hinj.
Qed.

Lemma record_paths_distinct_witness :
  (isSafeInteger 7 ∧ isSafeInteger 70 ∧ 7 ≠ 70) ∧
  (idPath "/budgets/" 7 ≠ idPath "/budgets/" 70 ∧
   url (deleteTransaction 7) ≠ url (deleteTransaction 70) ∧
   url (deleteBudget 7) ≠ url (deleteBudget 70) ∧
   url (deleteAlertConfig 7) ≠ url (deleteAlertConfig 70) ∧
   ∀ d d', url (updateTransaction 7 d) ≠ url (updateTransaction 70 d') ∧
           url (updateBudget 7 d) ≠ url (updateBudget 70 d') ∧
           url (updateAlertConfig 7 d) ≠ url (updateAlertConfig 70 d')).
Proof.
  assert (H7 : isSafeInteger 7) by (unfold isSafeInteger; lia).
  assert (H70 : isSafeInteger 70) by (unfold isSafeInteger; lia).
  split; [repeat split; solve [apply H7 | apply H70 | lia]|].
  apply (record_paths_distinct "/budgets/" 7 70 H7 H70). lia.
Defined.

(* ===================================================================== *)
(** ** Event handlers of the Transactions and Budgets pages *)
(* ===================================================================== *)

Lemma mutate_world (t : string → string) (s : ApiService) (m : Mutation)
    (w : World) (n : Net) :
  (mutate t s m w n).1.1 = (request s (mutationFn m) w n).1.1.
Proof.
  unfold mutate. by destruct (request s (mutationFn m) w n) as [[w' n'] out].
Qed.

Lemma request_rejected_world (s : ApiService) (c : RequestConfig) (w : World)
    (n : Net) (e : AxiosError) :
  (request s c w n).2 = Rejected e →
  (request s c w n).1.1 = (responseRejected (A:=Response) e w).1.
Proof.
  unfold request, transmit.
  destruct (settle (outgoing s w c) (server n (outgoing s w c))) as [r|e'];
    simpl; [discriminate|].
  by intros [= ->].
Qed.

Lemma fire_Some (t : string → string) (s : ApiService) (m : Mutation)
    (st : Page.State) (w : World) (n : Net) :
  Page.fire t s (Some m) st w n =
    (Page.performAll st (mutate t s m w n).2,
     (mutate t s m w n).1.1, (mutate t s m w n).1.2, (mutate t s m w n).2).
Proof. unfold Page.fire. by destruct (mutate t s m w n) as [[w' n'] tr]. Qed.

Lemma performAll_onError (t : string → string) (m : Mutation) (e : AxiosError)
    (st : Page.State) :
  Page.performAll st (onError t m e) = st.
Proof. by destruct m. Qed.







(** X20. A mutation that fails for any reason other than a 401 leaves
    everything as it was: the error handler changes no state cell and no
    form value, storage and location are untouched, so the form stays open,
    filled in and in the same mode, and a second submit sends the same
    mutation again.  (After a 401 the browser is sent to the login page and
    the page is gone; nothing is said about that case.) *)
Theorem failure_keeps_page_state
    (t : string → string) (s : ApiService) (m : Mutation)
    (st : Page.State) (w : World) (n : Net) (e : AxiosError) :
  (request s (mutationFn m) w n).2 = Rejected e →
  isUnauthorized e = false →
  let result := Page.fire t s (Some m) st w n in
  result.1.1.1 = st ∧
  result.1.1.2 = w ∧
  result.2 = onError t m e ∧
  (∀ d, TransactionsPage.onSubmit d result.1.1.1 = TransactionsPage.onSubmit d st) ∧
  (∀ d, BudgetsPage.onSubmit d result.1.1.1 = BudgetsPage.onSubmit d st).
Proof.
  intros He Hu result. subst result. rewrite fire_Some. simpl.
  rewrite (mutate_rejected t s m w n e He), performAll_onError.
  split; [done|]. split; [|by repeat split].
  rewrite mutate_world, (request_rejected_world s _ w n e He).
  by rewrite (responseRejected_other (A:=Response) e w Hu).
Qed.

Lemma failure_keeps_page_state_witness :
  let transaction := Page.mkRow 42 {[ "amount" := JNum 15 ]} in
  let st := TransactionsPage.handleEdit transaction Page.initial in
  let d := JObj {[ "amount" := JNum 18; "description" := JStr "Lunch";
                   "category" := JStr "food"; "date" := JStr "2024-03-01";
                   "is_income" := JNum 0 ]} in
  let m := TransactionsPage.onSubmit d st in
  let n := Samples.always 400 (JObj {[ "error" := JStr "Category does not exist" ]}) in
  let result := Page.fire Samples.keys Samples.service (Some m) st Samples.signedIn n in
  ∃ e, isUnauthorized e = false ∧
       result.1.1.1 = st ∧
       result.1.1.2 = Samples.signedIn ∧
       result.2 = onError Samples.keys m e ∧
       (∀ d, TransactionsPage.onSubmit d result.1.1.1 = TransactionsPage.onSubmit d st) ∧
       (∀ d, BudgetsPage.onSubmit d result.1.1.1 = BudgetsPage.onSubmit d st).
Proof.
  intros transaction st d m n result.
  eexists. split; [|
    apply (failure_keeps_page_state Samples.keys Samples.service m st
             Samples.signedIn n); reflexivity].
  reflexivity.
Defined.

(** X21. What success does to the page depends on the mutation: a created
    record closes and empties the form; an imported file closes the import
    dialog and nothing else; a deleted record changes no state cell. *)
Theorem success_page_effects
    (t : string → string) (d : jsval) (id : Z) (file : File) (st : Page.State) :
  Page.performAll st (onSuccess t (createTransactionMutation d))
    = Page.mkPage false (Page.editing st) (Page.showImportModal st) ∅ ∧
  Page.performAll st (onSuccess t (createBudgetMutation d))
    = Page.mkPage false (Page.editing st) (Page.showImportModal st) ∅ ∧
  Page.performAll st (onSuccess t (importCSVMutation file))
    = Page.mkPage (Page.showAddForm st) (Page.editing st) false (Page.formValues st) ∧
  Page.performAll st (onSuccess t (deleteTransactionMutation id)) = st ∧
  Page.performAll st (onSuccess t (deleteBudgetMutation id)) = st.
Proof. by destruct st. Qed.

Ltac in_list :=
  repeat first [ apply list_elem_of_here | apply list_elem_of_further ].

Ltac each_entry tac :=
  repeat (apply Forall_cons; split; [tac|]); constructor.

Ltac redirect_target :=
  let to := fresh "to" in let Hto := fresh "Hto" in
  simpl; intros to Hto; try discriminate Hto; injection Hto as <-; in_list.

Lemma setValueFrom_lookup (r : Page.Row) (k j : string) (form : gmap string jsval) :
  Page.setValueFrom r k form !! j =
    if decide (k = j) then Some (Page.rowProp r k) else form !! j.
Proof. unfold Page.setValueFrom. apply lookup_insert. Qed.

(** X22. Editing a row fills the form from that row and from nothing else: each
    field the page sets holds the row's value for it ([undefined] if the row
    has none), every other form value is left as it was, the form is shown,
    and the submit that follows addresses the row by its id. *)
Theorem handleEdit_prefills (row : Page.Row) (st : Page.State) (k : string) :
  let tx := TransactionsPage.handleEdit row st in
  let bd := BudgetsPage.handleEdit row st in
  Page.formValues tx !! k =
    (if decide (k ∈ [ "amount"; "description"; "category"; "date"; "is_income" ])
     then Some (default JUndefined (<["id" := JNum (Page.rowId row)]>
                                      (Page.rowFields row) !! k))
     else Page.formValues st !! k) ∧
  Page.formValues bd !! k =
    (if decide (k ∈ [ "category"; "limit"; "period" ])
     then Some (default JUndefined (<["id" := JNum (Page.rowId row)]>
                                      (Page.rowFields row) !! k))
     else Page.formValues st !! k) ∧
  Page.showAddForm tx = true ∧ Page.showAddForm bd = true ∧
  (∀ d, TransactionsPage.onSubmit d tx
        = updateTransactionMutation (Page.rowId row) d) ∧
  (∀ d, BudgetsPage.onSubmit d bd = updateBudgetMutation (Page.rowId row) d).
Proof.
  cbv zeta. split; [|split; [|by repeat split]].
  - unfold TransactionsPage.handleEdit. simpl.
    rewrite !setValueFrom_lookup.
    repeat case_decide; subst; try done;
      repeat match goal with
             | H : _ ∈ _ |- _ => apply elem_of_cons in H as [H|H]; [congruence|]
             | H : _ ∈ [] |- _ => by apply elem_of_nil in H
             | H : ¬ _ ∈ _ |- _ => exfalso; apply H; in_list
             end.
  - unfold BudgetsPage.handleEdit. simpl.
    rewrite !setValueFrom_lookup.
    repeat case_decide; subst; try done;
      repeat match goal with
             | H : _ ∈ _ |- _ => apply elem_of_cons in H as [H|H]; [congruence|]
             | H : _ ∈ [] |- _ => by apply elem_of_nil in H
             | H : ¬ _ ∈ _ |- _ => exfalso; apply H; in_list
             end.
Qed.

(* ===================================================================== *)
(** ** The budgets table *)
(* ===================================================================== *)

Lemma find_hit (budgetId : Z) (f : gmap string jsval) (rest : list jsval) :
  f !! "budget_id" = Some (JNum budgetId) →
  BudgetsView.find budgetId (JObj f :: rest) = BudgetsView.Value (JObj f).
Proof.
  intros Hf. simpl. unfold BudgetsView.hasBudgetId, optProp. rewrite Hf. simpl.
  by rewrite bool_decide_eq_true_2.
Qed.

Lemma find_skip (budgetId : Z) (f : gmap string jsval) (rest : list jsval) :
  f !! "budget_id" ≠ Some (JNum budgetId) →
  BudgetsView.find budgetId (JObj f :: rest) = BudgetsView.find budgetId rest.
Proof.
  intros Hf. simpl. unfold BudgetsView.hasBudgetId, optProp.
  destruct (f !! "budget_id") as [v|]; simpl; [|done].
  destruct v; try done. case_bool_decide; [by subst|done].
Qed.

Lemma find_skip_all (budgetId : Z) (before : list (gmap string jsval))
    (rest : list jsval) :
  Forall (λ f, f !! "budget_id" ≠ Some (JNum budgetId)) before →
  BudgetsView.find budgetId ((JObj <$> before) ++ rest)
  = BudgetsView.find budgetId rest.
Proof.
  induction 1 as [|f before Hf _ IH]; [done|].
  rewrite fmap_cons, <- app_comm_cons, find_skip by done. exact IH.
Qed.

(** X23. Looking up the status of a budget in a list of status objects never
    fails: it gives the first object whose [budget_id] is that number, and
    [undefined] when there is none, when the list is not loaded yet, or when
    the response has no body. *)
Theorem getBudgetStatus_first_match
    (budgetId : Z) (code : Z) (before after : list (gmap string jsval))
    (hit : gmap string jsval) :
  Forall (λ f, f !! "budget_id" ≠ Some (JNum budgetId)) before →
  hit !! "budget_id" = Some (JNum budgetId) →
  BudgetsView.getBudgetStatus
    (Some (mkResponse code (JArr (JObj <$> before ++ hit :: after)))) budgetId
    = BudgetsView.Value (JObj hit) ∧
  BudgetsView.getBudgetStatus
    (Some (mkResponse code (JArr (JObj <$> before)))) budgetId
    = BudgetsView.Value JUndefined ∧
  BudgetsView.getBudgetStatus None budgetId = BudgetsView.Value JUndefined ∧
  BudgetsView.getBudgetStatus (Some (mkResponse code JNull)) budgetId
    = BudgetsView.Value JUndefined.
Proof.
  intros Hbefore Hhit. unfold BudgetsView.getBudgetStatus. simpl body.
  repeat split.
  - rewrite fmap_app, fmap_cons, find_skip_all by done. by apply find_hit.
  - rewrite <- (app_nil_r (JObj <$> before)). by rewrite find_skip_all.
Qed.

Lemma getBudgetStatus_first_match_witness :
  let a : gmap string jsval := {[ "budget_id" := JNum 1; "status" := JStr "warning" ]} in
  let b : gmap string jsval := {[ "budget_id" := JNum 2; "status" := JStr "on_track" ]} in
  let c : gmap string jsval := {[ "budget_id" := JNum 2; "status" := JStr "exceeded" ]} in
  BudgetsView.getBudgetStatus
    (Some (mkResponse 200 (JArr (JObj <$> [a] ++ b :: [c])))) 2
    = BudgetsView.Value (JObj b) ∧
  BudgetsView.getBudgetStatus (Some (mkResponse 200 (JArr (JObj <$> [a])))) 2
    = BudgetsView.Value JUndefined ∧
  BudgetsView.getBudgetStatus None 2 = BudgetsView.Value JUndefined ∧
  BudgetsView.getBudgetStatus (Some (mkResponse 200 JNull)) 2
    = BudgetsView.Value JUndefined.
Proof.
  intros a b c.
  apply (getBudgetStatus_first_match 2 200 [a] [c] b).
  - repeat constructor. vm_compute. discriminate.
  - reflexivity.
Defined.

(** X24. A status list that holds [null], or a body that is neither a list nor
    empty, makes the lookup throw as soon as it gets there: a [null] entry
    in front of the match is fatal, one behind it is never looked at. *)
Theorem getBudgetStatus_failures
    (budgetId : Z) (code : Z) (hit : gmap string jsval)
    (rest : list jsval) (fields : gmap string jsval) (text : string) :
  hit !! "budget_id" = Some (JNum budgetId) →
  BudgetsView.getBudgetStatus
    (Some (mkResponse code (JArr (JNull :: JObj hit :: rest)))) budgetId
    = BudgetsView.TypeError ∧
  BudgetsView.getBudgetStatus
    (Some (mkResponse code (JArr (JObj hit :: JNull :: rest)))) budgetId
    = BudgetsView.Value (JObj hit) ∧
  BudgetsView.getBudgetStatus (Some (mkResponse code (JObj fields))) budgetId
    = BudgetsView.TypeError ∧
  BudgetsView.getBudgetStatus (Some (mkResponse code (JStr text))) budgetId
    = BudgetsView.TypeError.
Proof.
  intros Hhit. repeat split. simpl.
  unfold BudgetsView.hasBudgetId, optProp. rewrite Hhit. simpl.
  by rewrite bool_decide_eq_true_2.
Qed.

Lemma getBudgetStatus_failures_witness :
  let hit : gmap string jsval := {[ "budget_id" := JNum 5 ]} in
  BudgetsView.getBudgetStatus
    (Some (mkResponse 200 (JArr (JNull :: JObj hit :: [])))) 5
    = BudgetsView.TypeError ∧
  BudgetsView.getBudgetStatus
    (Some (mkResponse 200 (JArr (JObj hit :: JNull :: [])))) 5
    = BudgetsView.Value (JObj hit) ∧
  BudgetsView.getBudgetStatus (Some (mkResponse 200 (JObj ∅))) 5
    = BudgetsView.TypeError ∧
  BudgetsView.getBudgetStatus (Some (mkResponse 200 (JStr "oops"))) 5
    = BudgetsView.TypeError.
Proof.
  intros hit.
  apply (getBudgetStatus_failures 5 200 hit [] ∅ "oops"). reflexivity.
Defined.

(** X25. The fallbacks of a table row.  A budget without a status shows a
    spending of 0, its full limit as remaining and the on-track colour.
    With a status, the remaining cell shows [remaining_budget] unless that is
    falsy: a budget with exactly 0 remaining shows its full limit, like one
    that has no status at all. *)
Theorem budget_row_fallbacks (budget : Page.Row) (fields : gmap string jsval) :
  BudgetsView.cells JUndefined budget
    = BudgetsView.mkCells (JNum 0) (Page.rowProp budget "limit") "bg-green-500" ∧
  BudgetsView.remainingBudget (BudgetsView.cells (JObj fields) budget)
    = match fields !! "remaining_budget" with
      | Some v => if truthy v then v else Page.rowProp budget "limit"
      | None => Page.rowProp budget "limit"
      end ∧
  BudgetsView.remainingBudget
    (BudgetsView.cells (JObj (<["remaining_budget" := JNum 0]> fields)) budget)
    = BudgetsView.remainingBudget (BudgetsView.cells JUndefined budget).
Proof.
  repeat split.
  - unfold BudgetsView.cells, or_else, optProp; simpl.
    by destruct (fields !! "remaining_budget").
  - unfold BudgetsView.cells, or_else, optProp; simpl.
    by rewrite lookup_insert_eq.
Qed.

(** The colour and the label of a status agree on what they know: each
    of the three known statuses has its own colour and its translated label;
    any other status is grey and shown verbatim. *)
Lemma status_color_and_text (t : string → string) (status : string) :
  (BudgetsView.getStatusColor status = "bg-gray-500"
   ↔ status ≠ "on_track" ∧ status ≠ "warning" ∧ status ≠ "exceeded") ∧
  (BudgetsView.getStatusColor status = "bg-gray-500" →
   BudgetsView.getStatusText t status = status) ∧
  (BudgetsView.getStatusColor status = "bg-red-500" ↔ status = "exceeded") ∧
  BudgetsView.statusColorOf JUndefined = "bg-green-500".
Proof.
  unfold BudgetsView.getStatusColor, BudgetsView.getStatusText.
  repeat case_decide; subst; repeat split; try done; intros; try done;
    try (destruct_and?; done).
Qed.

(* ===================================================================== *)
(** ** The budget usage bar *)
(* ===================================================================== *)

Section UsageBarFacts.

Import QArith_base.
#[local] Open Scope Q_scope.

Lemma color_green (p : Q) : UsageBar.color p = "bg-green-500" ↔ p <= 75#1.
Proof.
  unfold UsageBar.color. destruct (Qle_bool p (inject_Z 75)) eqn:H75.
  - split; [intros _; by apply Qle_bool_iff | done].
  - split; [destruct (Qle_bool p (inject_Z 90)); discriminate|].
    intros H. apply Qle_bool_iff in H. unfold inject_Z in H75. congruence.
Qed.

Lemma color_red (p : Q) : UsageBar.color p = "bg-red-500" ↔ 90#1 < p.
Proof.
  unfold UsageBar.color.
  destruct (Qle_bool p (inject_Z 75)) eqn:H75.
  - split; [discriminate|]. intros H. apply Qle_bool_iff in H75.
    exfalso. apply (Qlt_irrefl p).
    apply Qle_lt_trans with (inject_Z 75); [done|].
    apply Qlt_trans with (90#1); [reflexivity | done].
  - destruct (Qle_bool p (inject_Z 90)) eqn:H90.
    + split; [discriminate|]. intros H. apply Qle_bool_iff in H90.
      exfalso. apply (Qlt_irrefl p). by apply Qle_lt_trans with (inject_Z 90).
    + split; [|done]. intros _. apply Qnot_le_lt. intros H.
      apply Qle_bool_iff in H. unfold inject_Z in H90. congruence.
Qed.

(** X28. The usage bar never grows past full width and a full bar is always
    red: the width is the percentage itself up to 100 and exactly 100 from
    there on; the bar is green up to 75, red above 90 and yellow in between,
    so every bar drawn at full width is red. *)
Theorem usage_bar_bounds (p : Q) :
  UsageBar.width p <= 100#1 ∧
  (p <= 100#1 → UsageBar.width p == p) ∧
  (100#1 <= p → UsageBar.width p == 100#1 ∧ UsageBar.color p = "bg-red-500") ∧
  (UsageBar.color p = "bg-green-500" ↔ p <= 75#1) ∧
  (UsageBar.color p = "bg-red-500" ↔ 90#1 < p) ∧
  (UsageBar.color p = "bg-yellow-500" ↔ 75#1 < p ∧ p <= 90#1).
Proof.
  split; [apply Qminmax.Q.le_min_r|].
  split; [apply Qminmax.Q.min_l|].
  split; [|split; [apply color_green | split; [apply color_red|]]].
  - intros H. split; [by apply Qminmax.Q.min_r|].
    apply color_red. apply Qlt_le_trans with (100#1); [reflexivity | done].
  - pose proof (color_green p) as Hg. pose proof (color_red p) as Hr.
    split.
    + intros Hy. split.
      * apply Qnot_le_lt. intros H. apply Hg in H. congruence.
      * apply Qnot_lt_le. intros H. apply Hr in H. congruence.
    + intros [H75 H90]. unfold UsageBar.color.
      destruct (Qle_bool p (inject_Z 75)) eqn:E75.
      * apply Qle_bool_iff in E75. exfalso. apply (Qlt_irrefl p).
        by apply Qle_lt_trans with (inject_Z 75).
      * assert (Qle_bool p (inject_Z 90) = true) as ->; [|done].
        by apply Qle_bool_iff.
Qed.

End UsageBarFacts.

(* ===================================================================== *)
(** ** Routes and sidebar links *)
(* ===================================================================== *)

Lemma routes_signed_out (user : jsval) :
  truthy user = false →
  App.mounted <$> App.routes false user =
    Some [ ("/login", App.Login); ("/register", App.Register);
           ("*", App.Navigate "/login") ].
Proof. intros H. unfold App.routes. rewrite H. reflexivity. Qed.

Lemma routes_signed_in (user : jsval) :
  truthy user = true →
  App.mounted <$> App.routes false user =
    Some [ ("/login", App.Navigate "/dashboard");
           ("/register", App.Navigate "/dashboard");
           ("/", App.Layout);
           ("/", App.Navigate "/dashboard");
           ("/dashboard", App.Dashboard);
           ("/transactions", App.Transactions);
           ("/budgets", App.Budgets);
           ("/reports", App.Reports);
           ("/settings", App.Settings) ].
Proof. intros H. unfold App.routes. rewrite H. reflexivity. Qed.

(** X29. Without a user no page of the application is mounted: the route table
    then holds the login form, the registration form and a catch-all that
    redirects to ['/login'], which is itself the login form; and while the
    session is still loading there is no route table at all. *)
Theorem signed_out_mounts_no_page (user : jsval) :
  truthy user = false →
  App.routes true user = None ∧
  ∃ rs, App.routes false user = Some rs ∧
    Forall (λ pe, App.isPage pe.2 = false ∧ pe.2 ≠ App.Layout) (App.mounted rs) ∧
    Forall (λ pe, ∀ to, pe.2 = App.Navigate to →
                        (to, App.Login) ∈ App.mounted rs) (App.mounted rs) ∧
    ("*", App.Navigate "/login") ∈ App.mounted rs.
Proof.
  intros H. split; [reflexivity|].
  pose proof (routes_signed_out user H) as Hm.
  destruct (App.routes false user) as [rs|]; [|done].
  exists rs. split; [done|]. injection Hm as ->.
  split; [|split].
  - each_entry ltac:(by split).
  - each_entry redirect_target.
  - in_list.
Qed.

Lemma signed_out_mounts_no_page_witness :
  truthy JNull = false ∧
  (App.routes true JNull = None ∧
   ∃ rs, App.routes false JNull = Some rs ∧
     Forall (λ pe, App.isPage pe.2 = false ∧ pe.2 ≠ App.Layout) (App.mounted rs) ∧
     Forall (λ pe, ∀ to, pe.2 = App.Navigate to →
                         (to, App.Login) ∈ App.mounted rs) (App.mounted rs) ∧
     ("*", App.Navigate "/login") ∈ App.mounted rs).
Proof.
  split; [reflexivity|]. apply (signed_out_mounts_no_page JNull). reflexivity.
Defined.

(** X30. With a user every sidebar link leads to a page: each [href] of the
    sidebar is the path of a mounted page, no two links share a page, every
    redirect in the table ends on the dashboard, and the login and
    registration forms are no longer mounted. *)
Theorem signed_in_links_resolve (user : jsval) :
  truthy user = true →
  ∃ rs, App.routes false user = Some rs ∧
    Forall (λ href, ∃ el, (href, el) ∈ App.mounted rs ∧ App.isPage el = true)
           App.navigation ∧
    NoDup App.navigation ∧
    Forall (λ pe, ∀ to, pe.2 = App.Navigate to →
                        (to, App.Dashboard) ∈ App.mounted rs) (App.mounted rs) ∧
    Forall (λ pe, pe.2 ≠ App.Login ∧ pe.2 ≠ App.Register ∧ pe.1 ≠ "*")
           (App.mounted rs).
Proof.
  intros H. pose proof (routes_signed_in user H) as Hm.
  destruct (App.routes false user) as [rs|]; [|done].
  exists rs. split; [done|]. injection Hm as ->.
  split; [|split; [|split]].
  - unfold App.navigation.
    each_entry ltac:(eexists; split; [in_list | reflexivity]).
  - unfold App.navigation.
    repeat (apply NoDup_cons; split;
            [rewrite ?not_elem_of_cons; repeat split;
             first [discriminate | apply not_elem_of_nil]|]).
    apply NoDup_nil_2.
  - each_entry redirect_target.
  - each_entry ltac:(by repeat split).
Qed.

Lemma signed_in_links_resolve_witness :
  let user := JObj {[ "id" := JNum 1; "username" := JStr "sara" ]} in
  truthy user = true ∧
  ∃ rs, App.routes false user = Some rs ∧
    Forall (λ href, ∃ el, (href, el) ∈ App.mounted rs ∧ App.isPage el = true)
           App.navigation ∧
    NoDup App.navigation ∧
    Forall (λ pe, ∀ to, pe.2 = App.Navigate to →
                        (to, App.Dashboard) ∈ App.mounted rs) (App.mounted rs) ∧
    Forall (λ pe, pe.2 ≠ App.Login ∧ pe.2 ≠ App.Register ∧ pe.1 ≠ "*")
           (App.mounted rs).
Proof.
  intros user. split; [reflexivity|].
  apply (signed_in_links_resolve user). reflexivity.
Defined.
